(** * Snapshot builder of the ads copilot agent (src/app/snapshot.py)

    A shallow embedding of [build_snapshot], [build_demo_snapshot] and the
    four detectors, followed by the properties the specification states
    about them.

    - Python [float] is IEEE 754 binary64: Rocq's primitive [float], with
      [==], [>] and [<] as [PrimFloat.eqb] and [PrimFloat.ltb] (so NaN and
      signed zeros behave as in Python).
    - Python [dict] is a [gmap] with string keys.
    - A raised exception is the [Raise] case of [result]; the effects of
      [build_snapshot] (provider calls, [print]) are threaded through a
      state-and-error monad over [World]. *)

From Stdlib Require Import Floats ZArith Sorted.
From stdpp Require Import gmap strings pretty.

Set Warnings "-inexact-float".
Set Default Proof Using "Type".

(** ** Python values *)

(** The values that occur in [Issue.metadata] and in the free-form policy
    records. *)
Inductive PyVal :=
| VNone
| VBool (b : bool)
| VInt (z : Z)
| VFloat (f : float)
| VStr (s : string)
| VList (l : list string).

(** [{ k1: v1, ..., kn: vn }]: the keys are inserted from left to right, a
    repeated key keeps the last value. *)
Definition dict_literal (items : list (string * PyVal)) : gmap string PyVal :=
  foldl (λ d kv, <[kv.1 := kv.2]> d) ∅ items.

(** Truth value of a float: zero (of either sign) is false, everything else,
    NaN included, is true.  [None] is false as well: see the rules that test
    an optional field. *)
Definition float_truthy (x : float) : bool := negb (PrimFloat.eqb x 0).

(** ** [format(x, ".2f")]

    The decimal expansion of the exact binary value, rounded to two places,
    ties to even. *)

(** [m * 2^e * 100], rounded to the nearest integer, ties to even. *)
Definition hundredths (m : positive) (e : Z) : Z :=
  let n := (Z.pos m * 100)%Z in
  if (0 <=? e)%Z then (n * 2 ^ e)%Z
  else
    let d := (2 ^ (- e))%Z in
    let q := (n / d)%Z in
    let r := (n mod d)%Z in
    match (2 * r ?= d)%Z with
    | Lt => q
    | Gt => (q + 1)%Z
    | Eq => if Z.even q then q else (q + 1)%Z
    end.

Definition two_digits (n : Z) : string :=
  pretty (n / 10)%Z +:+ pretty (n mod 10)%Z.

Definition format_2f (x : float) : string :=
  match Prim2SF x with
  | S754_nan => "nan"
  | S754_infinity s => if s then "-inf" else "inf"
  | S754_zero s => if s then "-0.00" else "0.00"
  | S754_finite s m e =>
      let h := hundredths m e in
      (if s then "-" else "") +:+ pretty (h / 100)%Z +:+ "." +:+ two_digits (h mod 100)%Z
  end.

(** ** Exceptions *)

(** The exceptions of a run.  [KeyError], [ValueError] and the errors of the
    providers derive from [Exception]; [KeyboardInterrupt] and [SystemExit]
    derive from [BaseException] only. *)
Inductive PyExn :=
| KeyError (key : string)
| ProviderError (msg : string)
| ValueError (msg : string)
| KeyboardInterrupt
| SystemExit.

(** [isinstance(e, Exception)] *)
Definition is_exception (e : PyExn) : bool :=
  match e with
  | KeyError _ | ProviderError _ | ValueError _ => true
  | KeyboardInterrupt | SystemExit => false
  end.

Inductive result (A : Type) :=
| Ok (a : A)
| Raise (e : PyExn).
Arguments Ok {A} a.
Arguments Raise {A} e.

#[global] Instance result_ret : MRet result := λ A a, Ok a.
#[global] Instance result_bind : MBind result := λ A B f m,
  match m with
  | Ok a => f a
  | Raise e => Raise e
  end.

(** [d[key]] *)
Definition getitem (d : gmap string PyVal) (key : string) : result PyVal :=
  match d !! key with
  | Some v => Ok v
  | None => Raise (KeyError key)
  end.

(** [for x in l: s = body(s, x)], where the body may raise. *)
Fixpoint for_each {A S : Type} (body : S → A → result S) (s : S) (l : list A) : result S :=
  match l with
  | [] => Ok s
  | x :: l' => s' ← body s x; for_each body s' l'
  end.

(** ** Data model (app/models.py) *)

Module Summary.
(** Modelled from the spec: the declaration of [Summary] in app/models.py is
    not under src/.  Section 3 of the spec gives the fields; [average_cpa]
    and [roas] may be undefined. *)
Record t := mk {
  date_range : string;
  total_spend : float;
  total_conversions : float;
  average_cpa : option float;
  roas : option float;
  currency : string
}.
End Summary.

Module Issue.
(** Modelled from the spec: the declaration of [Issue] in app/models.py is
    not under src/; the fields are those of the constructor calls in
    snapshot.py. *)
Record t := mk {
  type : string;
  severity : string;
  description : string;
  metadata : gmap string PyVal
}.
End Issue.

Module RecommendedAction.
(** Modelled from the spec: the declaration of [RecommendedAction] in
    app/models.py is not under src/; the fields are those of the constructor
    calls in snapshot.py. *)
Record t := mk {
  action_type : string;
  description : string;
  priority : string;
  related_issue_type : string
}.
End RecommendedAction.

Module SnapshotResponse.
Record t := mk {
  summary : Summary.t;
  top_issues : list Issue.t;
  recommended_actions : list RecommendedAction.t
}.
End SnapshotResponse.

Module CampaignKPI.
(** Modelled from the spec: the declaration of [CampaignKPI] in
    app/models.py is not under src/.  The numeric fields are floats and
    [cpa] is optional (the detector tests it before comparing). *)
Record t := mk {
  campaign_id : string;
  campaign_name : string;
  spend : float;
  conversions : float;
  cpa : option float
}.
End CampaignKPI.

Module SearchTermData.
(** Modelled from the spec: the declaration of [SearchTermData] in
    app/models.py is not under src/.  [clicks] is an integer count,
    [conversion_rate] is optional (the detector tests it before comparing). *)
Record t := mk {
  search_term : string;
  cost : float;
  clicks : Z;
  conversions : float;
  conversion_rate : option float
}.
End SearchTermData.

Module DisapprovedProduct.
(** Modelled from the spec: the declaration of [DisapprovedProduct] in
    app/models.py is not under src/. *)
Record t := mk {
  product_id : string;
  title : string;
  issues : list string
}.
End DisapprovedProduct.

Module AccountKpis.
(** Modelled from the spec: the mapping returned by [ads_get_account_kpis]
    (app/google_ads.py is not under src/).  Section 6 of the spec fixes its
    five keys, so [account_kpis["k"]] and [account_kpis.get("k")] are the
    projections of this record. *)
Record t := mk {
  total_spend : float;
  total_conversions : float;
  average_cpa : option float;
  roas : option float;
  currency : string
}.
End AccountKpis.

(** A pair of finding lists, as every detector returns it. *)
Abbreviation findings := (list Issue.t * list RecommendedAction.t)%type.

(** ** Product feed detector *)

Definition disapproved_product_description (product : DisapprovedProduct.t) : string :=
  let issue_desc :=
    "Product '" +:+ DisapprovedProduct.title product +:+ "' (ID: "
      +:+ DisapprovedProduct.product_id product +:+ ") is disapproved" in
  match DisapprovedProduct.issues product with
  | [] => issue_desc
  | first_issue :: _ => issue_desc +:+ ": " +:+ first_issue
  end.

Definition disapproved_product_issue (product : DisapprovedProduct.t) : Issue.t :=
  Issue.mk "disapproved_product" "high"
    (disapproved_product_description product)
    (dict_literal
       [("product_id", VStr (DisapprovedProduct.product_id product));
        ("product_title", VStr (DisapprovedProduct.title product));
        ("issues", VList (DisapprovedProduct.issues product))]).

Definition fix_product_feed_action (product : DisapprovedProduct.t) : RecommendedAction.t :=
  RecommendedAction.mk "fix_product_feed"
    ("Fix product data for '" +:+ DisapprovedProduct.title product
       +:+ "' and request a review in Merchant Center")
    "high" "disapproved_product".

(** The loop body: both lists grow by one element. *)
Definition disapproved_product_body (acc : findings) (product : DisapprovedProduct.t) : findings :=
  let '(issues, recommendations) := acc in
  (issues ++ [disapproved_product_issue product],
   recommendations ++ [fix_product_feed_action product]).

Definition analyze_disapproved_products
    (disapproved_products : list DisapprovedProduct.t) : findings :=
  foldl disapproved_product_body ([], []) (take 10 disapproved_products).

(** ** Campaign performance detector *)

Definition zero_conversion_campaign_issue (campaign : CampaignKPI.t) : Issue.t :=
  Issue.mk "zero_conversion_campaign" "high"
    ("Campaign '" +:+ CampaignKPI.campaign_name campaign +:+ "' spent $"
       +:+ format_2f (CampaignKPI.spend campaign) +:+ " with 0 conversions")
    (dict_literal
       [("campaign_id", VStr (CampaignKPI.campaign_id campaign));
        ("campaign_name", VStr (CampaignKPI.campaign_name campaign));
        ("spend", VFloat (CampaignKPI.spend campaign));
        ("conversions", VFloat (CampaignKPI.conversions campaign))]).

Definition zero_conversion_campaign_action (campaign : CampaignKPI.t) : RecommendedAction.t :=
  RecommendedAction.mk "optimize_campaign"
    ("Review and optimize campaign '" +:+ CampaignKPI.campaign_name campaign
       +:+ "' or pause it to prevent budget waste")
    "high" "zero_conversion_campaign".

Definition high_cpa_campaign_issue
    (campaign : CampaignKPI.t) (cpa avg_account_cpa : float) : Issue.t :=
  Issue.mk "high_cpa_campaign" "medium"
    ("Campaign '" +:+ CampaignKPI.campaign_name campaign +:+ "' has CPA of $"
       +:+ format_2f cpa +:+ ", 2x higher than account average")
    (dict_literal
       [("campaign_id", VStr (CampaignKPI.campaign_id campaign));
        ("campaign_name", VStr (CampaignKPI.campaign_name campaign));
        ("cpa", VFloat cpa);
        ("account_avg_cpa", VFloat avg_account_cpa)]).

Definition high_cpa_campaign_action (campaign : CampaignKPI.t) : RecommendedAction.t :=
  RecommendedAction.mk "optimize_campaign"
    ("Optimize targeting or ad copy for campaign '"
       +:+ CampaignKPI.campaign_name campaign +:+ "' to reduce CPA")
    "medium" "high_cpa_campaign".

(** [campaign.conversions == 0 and campaign.spend > 50] *)
Definition zero_conversion_rule (campaign : CampaignKPI.t) : bool :=
  PrimFloat.eqb (CampaignKPI.conversions campaign) 0
  && PrimFloat.ltb 50 (CampaignKPI.spend campaign).

(** [campaign.cpa and avg_account_cpa and campaign.cpa > avg_account_cpa * 2]:
    the two truth tests come first, so the comparison only sees floats. *)
Definition high_cpa_rule (cpa avg_account_cpa : option float) : option (float * float) :=
  match cpa, avg_account_cpa with
  | Some c, Some a =>
      if float_truthy c && float_truthy a && PrimFloat.ltb (a * 2)%float c
      then Some (c, a) else None
  | _, _ => None
  end.

Definition campaign_body (avg_account_cpa : option float)
    (acc : findings) (campaign : CampaignKPI.t) : findings :=
  let '(issues, recommendations) := acc in
  if zero_conversion_rule campaign then
    (issues ++ [zero_conversion_campaign_issue campaign],
     recommendations ++ [zero_conversion_campaign_action campaign])
  else
    match high_cpa_rule (CampaignKPI.cpa campaign) avg_account_cpa with
    | Some (c, a) =>
        (issues ++ [high_cpa_campaign_issue campaign c a],
         recommendations ++ [high_cpa_campaign_action campaign])
    | None => acc
    end.

Definition analyze_campaigns
    (campaign_kpis : list CampaignKPI.t) (account_kpis : AccountKpis.t) : findings :=
  let avg_account_cpa := AccountKpis.average_cpa account_kpis in
  foldl (campaign_body avg_account_cpa) ([], []) campaign_kpis.

(** ** Search term detector *)

Definition wasteful_search_term_issue (term : SearchTermData.t) : Issue.t :=
  Issue.mk "wasteful_search_term" "medium"
    ("Search term '" +:+ SearchTermData.search_term term +:+ "' spent $"
       +:+ format_2f (SearchTermData.cost term) +:+ " with 0 conversions")
    (dict_literal
       [("search_term", VStr (SearchTermData.search_term term));
        ("cost", VFloat (SearchTermData.cost term));
        ("clicks", VInt (SearchTermData.clicks term));
        ("conversions", VFloat (SearchTermData.conversions term))]).

Definition add_negative_keyword_action (term : SearchTermData.t) : RecommendedAction.t :=
  RecommendedAction.mk "add_negative_keyword"
    ("Add '" +:+ SearchTermData.search_term term
       +:+ "' as a negative keyword to prevent budget waste")
    "medium" "wasteful_search_term".

Definition low_conversion_search_term_issue
    (term : SearchTermData.t) (conversion_rate : float) : Issue.t :=
  Issue.mk "low_conversion_search_term" "low"
    ("Search term '" +:+ SearchTermData.search_term term
       +:+ "' has low conversion rate (" +:+ format_2f conversion_rate
       +:+ "%) with $" +:+ format_2f (SearchTermData.cost term) +:+ " spend")
    (dict_literal
       [("search_term", VStr (SearchTermData.search_term term));
        ("cost", VFloat (SearchTermData.cost term));
        ("conversion_rate", VFloat conversion_rate)]).

Definition review_search_term_action (term : SearchTermData.t) : RecommendedAction.t :=
  RecommendedAction.mk "review_search_term"
    ("Review search term '" +:+ SearchTermData.search_term term
       +:+ "' and consider adding as negative or adjusting match type")
    "low" "low_conversion_search_term".

(** [term.conversions == 0 and term.cost > 20] *)
Definition wasteful_rule (term : SearchTermData.t) : bool :=
  PrimFloat.eqb (SearchTermData.conversions term) 0
  && PrimFloat.ltb 20 (SearchTermData.cost term).

(** [term.conversion_rate and term.conversion_rate < 1.0 and term.cost > 50] *)
Definition low_conversion_rule (term : SearchTermData.t) : option float :=
  match SearchTermData.conversion_rate term with
  | Some r =>
      if float_truthy r && PrimFloat.ltb r 1 && PrimFloat.ltb 50 (SearchTermData.cost term)
      then Some r else None
  | None => None
  end.

Definition search_term_body (acc : findings) (term : SearchTermData.t) : findings :=
  let '(issues, recommendations) := acc in
  if wasteful_rule term then
    (issues ++ [wasteful_search_term_issue term],
     recommendations ++ [add_negative_keyword_action term])
  else
    match low_conversion_rule term with
    | Some r =>
        (issues ++ [low_conversion_search_term_issue term r],
         recommendations ++ [review_search_term_action term])
    | None => acc
    end.

Definition analyze_search_terms (search_terms : list SearchTermData.t) : findings :=
  foldl search_term_body ([], []) (take 15 search_terms).

(** ** Stable sort by key

    [l.sort(key=f)] sorts in ascending key order, is stable and compares keys
    with [<] only.  A stable sort has one possible result, so the insertion
    sort below returns what Python's sort returns. *)

Fixpoint insert_by_key {A : Type} (key : A → nat) (x : A) (l : list A) : list A :=
  match l with
  | [] => [x]
  | y :: l' => if key y <? key x then y :: insert_by_key key x l' else x :: y :: l'
  end.

Fixpoint sort_by_key {A : Type} (key : A → nat) (l : list A) : list A :=
  match l with
  | [] => []
  | x :: l' => insert_by_key key x (sort_by_key key l')
  end.

Definition severity_order : gmap string nat :=
  <["low" := 2]> (<["medium" := 1]> (<["high" := 0]> ∅)).

Definition priority_order : gmap string nat :=
  <["low" := 2]> (<["medium" := 1]> (<["high" := 0]> ∅)).

(** [lambda x: severity_order.get(x.severity, 3)] *)
Definition severity_key (x : Issue.t) : nat :=
  default 3 (severity_order !! Issue.severity x).

(** [lambda x: priority_order.get(x.priority, 3)] *)
Definition priority_key (x : RecommendedAction.t) : nat :=
  default 3 (priority_order !! RecommendedAction.priority x).

(** ** The fallback report *)

Definition build_demo_snapshot (customer_id date_range : string) : SnapshotResponse.t :=
  let summary :=
    Summary.mk date_range 1250.50%float 45.0%float (Some 27.79%float) (Some 3.2%float) "USD" in
  let issues : list Issue.t := [] in
  let recommendations : list RecommendedAction.t := [] in
  let issues := issues ++ [Issue.mk "disapproved_product" "high"
    "Product 'Premium Wireless Headphones' (ID: 5521) is disapproved: Invalid GTIN"
    (dict_literal
       [("product_id", VStr "5521");
        ("product_title", VStr "Premium Wireless Headphones");
        ("issues", VList ["Invalid GTIN"])])] in
  let recommendations := recommendations ++ [RecommendedAction.mk "fix_product_feed"
    "Fix product data for 'Premium Wireless Headphones' and request a review in Merchant Center"
    "high" "disapproved_product"] in
  let issues := issues ++ [Issue.mk "zero_conversion_campaign" "high"
    "Campaign 'Display - Retargeting' spent $150.00 with 0 conversions"
    (dict_literal
       [("campaign_id", VStr "998877");
        ("campaign_name", VStr "Display - Retargeting");
        ("spend", VFloat 150.00%float);
        ("conversions", VInt 0)])] in
  let recommendations := recommendations ++ [RecommendedAction.mk "optimize_campaign"
    "Review and optimize campaign 'Display - Retargeting' or pause it to prevent budget waste"
    "high" "zero_conversion_campaign"] in
  let issues := issues ++ [Issue.mk "wasteful_search_term" "medium"
    "Search term 'free headphones' spent $45.20 with 0 conversions"
    (dict_literal
       [("search_term", VStr "free headphones");
        ("cost", VFloat 45.20%float);
        ("clicks", VInt 32);
        ("conversions", VInt 0)])] in
  let recommendations := recommendations ++ [RecommendedAction.mk "add_negative_keyword"
    "Add 'free headphones' as a negative keyword to prevent budget waste"
    "medium" "wasteful_search_term"] in
  SnapshotResponse.mk summary issues recommendations.

(** ** Effects of the orchestrator *)

(** The calls [build_snapshot] can make to the providers, with their
    arguments. *)
Inductive ProviderCall :=
| AdsGetAccountKpis (customer_id date_range : string)
| AdsGetCampaignKpis (customer_id date_range : string)
| AdsGetSearchTerms (customer_id date_range : string) (min_spend : float)
| AdsGetPolicyIssues (customer_id : string)
| McGetDisapprovedProducts.

(** The process state the module can reach: what was printed, which
    provider calls were made, and the clock and the random generator behind
    the [datetime] and [random] modules that snapshot.py imports. *)
Record World := mkWorld {
  stdout : list string;
  provider_calls : list ProviderCall;
  clock : Z;
  random_state : Z
}.

Definition M (A : Type) : Type := World → result A * World.

#[global] Instance M_ret : MRet M := λ A a w, (Ok a, w).
#[global] Instance M_bind : MBind M := λ A B k m w,
  match m w with
  | (Ok a, w') => k a w'
  | (Raise e, w') => (Raise e, w')
  end.

(** A pure step that may raise. *)
Definition lift {A : Type} (r : result A) : M A := λ w, (r, w).

(** [try: m except Exception as e: handler(e)]: an exception that does not
    derive from [Exception] passes through. *)
Definition try_except {A : Type} (m : M A) (handler : PyExn → M A) : M A := λ w,
  match m w with
  | (Ok a, w') => (Ok a, w')
  | (Raise e, w') => if is_exception e then handler e w' else (Raise e, w')
  end.

(** [print(line)]: the line is written to standard output, or the write
    raises and nothing is written. *)
Definition print (stdout_write : string → result unit) (line : string) : M unit := λ w,
  match stdout_write line with
  | Ok _ => (Ok (), mkWorld (stdout w ++ [line]) (provider_calls w) (clock w) (random_state w))
  | Raise e => (Raise e, w)
  end.

(** A provider call is recorded, then returns or raises as the provider
    does. *)
Definition call {A : Type} (c : ProviderCall) (r : result A) : M A := λ w,
  (r, mkWorld (stdout w) (provider_calls w ++ [c]) (clock w) (random_state w)).

(** Modelled from the spec: [config.settings] is not under src/; only the
    developer token is read. *)
Record Settings := mkSettings {
  google_ads_developer_token : option string
}.

(** [not settings.google_ads_developer_token]: true for [None] and for the
    empty string. *)
Definition token_missing (settings : Settings) : bool :=
  match google_ads_developer_token settings with
  | None => true
  | Some token => bool_decide (token = "")
  end.

(** Modelled from the spec: app/google_ads.py and app/merchant_center.py are
    not under src/.  Section 6 of the spec gives the five provider calls;
    each returns its data or fails with an exception.  What a provider
    answers is a function of its arguments: the remote accounts do not change
    during a run. *)
Record Providers := mkProviders {
  ads_get_account_kpis : string → string → result AccountKpis.t;
  ads_get_campaign_kpis : string → string → result (list CampaignKPI.t);
  ads_get_search_terms : string → string → float → result (list SearchTermData.t);
  ads_get_policy_issues : string → result (list (gmap string PyVal));
  mc_get_disapproved_products : result (list DisapprovedProduct.t)
}.

Section Snapshot.

(** Python's [repr] of a value.  It belongs to the language, not to the
    repository, and nothing below depends on what it prints. *)
Variable py_repr : PyVal → string.

(** What writing a line to [sys.stdout] does: it succeeds, or it raises (a
    closed stream, a line the stream cannot encode).  It is a function of the
    line: the stream does not change during a run. *)
Variable stdout_write : string → result unit.

(** [str(v)], as an f-string field with no format spec renders it: a string
    is copied, every other value prints as its [repr]. *)
Definition py_str (v : PyVal) : string :=
  match v with
  | VStr s => s
  | _ => py_repr v
  end.

(** [str(e)] *)
Definition exn_str (e : PyExn) : string :=
  match e with
  | KeyError key => py_repr (VStr key)
  | ProviderError msg => msg
  | ValueError msg => msg
  | KeyboardInterrupt => ""
  | SystemExit => ""
  end.

(** ** Policy compliance detector *)

Definition policy_limited_ad_issue
    (policy_issue : gmap string PyVal) (ad_name campaign_name approval_status : PyVal) : Issue.t :=
  Issue.mk "policy_limited_ad" "medium"
    ("Ad '" +:+ py_str ad_name +:+ "' in campaign '" +:+ py_str campaign_name
       +:+ "' has approval status: " +:+ py_str approval_status)
    policy_issue.

Definition fix_policy_issue_action (ad_name : PyVal) : RecommendedAction.t :=
  RecommendedAction.mk "fix_policy_issue"
    ("Review and modify ad '" +:+ py_str ad_name +:+ "' to comply with Google Ads policies")
    "medium" "policy_limited_ad".

(** The loop body: the three subscripts of the issue description are
    evaluated in order, then the one of the action description. *)
Definition policy_body (acc : findings) (policy_issue : gmap string PyVal) : result findings :=
  let '(issues, recommendations) := acc in
  ad_name ← getitem policy_issue "ad_name";
  campaign_name ← getitem policy_issue "campaign_name";
  approval_status ← getitem policy_issue "approval_status";
  let issues :=
    issues ++ [policy_limited_ad_issue policy_issue ad_name campaign_name approval_status] in
  ad_name' ← getitem policy_issue "ad_name";
  let recommendations := recommendations ++ [fix_policy_issue_action ad_name'] in
  mret (issues, recommendations).

Definition analyze_policy_issues (policy_issues : list (gmap string PyVal)) : result findings :=
  for_each policy_body ([], []) (take 10 policy_issues).

(** ** The orchestrator *)

Variable settings : Settings.
Variable providers : Providers.

Definition build_snapshot (customer_id date_range : string) : M SnapshotResponse.t :=
  if token_missing settings then
    mret (build_demo_snapshot customer_id date_range)
  else
    try_except
      (account_kpis ← call (AdsGetAccountKpis customer_id date_range)
                          (ads_get_account_kpis providers customer_id date_range);
       campaign_kpis ← call (AdsGetCampaignKpis customer_id date_range)
                           (ads_get_campaign_kpis providers customer_id date_range);
       search_terms ← call (AdsGetSearchTerms customer_id date_range 10.0%float)
                          (ads_get_search_terms providers customer_id date_range 10.0%float);
       policy_issues ← call (AdsGetPolicyIssues customer_id)
                           (ads_get_policy_issues providers customer_id);
       disapproved_products ← call McGetDisapprovedProducts
                                  (mc_get_disapproved_products providers);
       let summary :=
         Summary.mk date_range
           (AccountKpis.total_spend account_kpis)
           (AccountKpis.total_conversions account_kpis)
           (AccountKpis.average_cpa account_kpis)
           (AccountKpis.roas account_kpis)
           (AccountKpis.currency account_kpis) in
       let issues : list Issue.t := [] in
       let recommendations : list RecommendedAction.t := [] in
       let '(issues_from_products, recs_from_products) :=
         analyze_disapproved_products disapproved_products in
       let issues := issues ++ issues_from_products in
       let recommendations := recommendations ++ recs_from_products in
       let '(issues_from_campaigns, recs_from_campaigns) :=
         analyze_campaigns campaign_kpis account_kpis in
       let issues := issues ++ issues_from_campaigns in
       let recommendations := recommendations ++ recs_from_campaigns in
       let '(issues_from_search_terms, recs_from_search_terms) :=
         analyze_search_terms search_terms in
       let issues := issues ++ issues_from_search_terms in
       let recommendations := recommendations ++ recs_from_search_terms in
       '(issues_from_policy, recs_from_policy) ← lift (analyze_policy_issues policy_issues);
       let issues := issues ++ issues_from_policy in
       let recommendations := recommendations ++ recs_from_policy in
       let issues := sort_by_key severity_key issues in
       let recommendations := sort_by_key priority_key recommendations in
       mret (SnapshotResponse.mk summary issues recommendations))
      (λ e,
         _ ← print stdout_write
               ("API Error: " +:+ exn_str e +:+ ". Falling back to demo mode.");
         mret (build_demo_snapshot customer_id date_range)).

End Snapshot.

(** * Vocabulary of the properties *)

(** ** Findings *)

Abbreviation finding := (Issue.t * RecommendedAction.t)%type.

(** What one iteration of each loop appends: the issue and its action,
    together. *)
Definition product_findings (product : DisapprovedProduct.t) : list finding :=
  [(disapproved_product_issue product, fix_product_feed_action product)].

Definition campaign_findings (avg_account_cpa : option float) (campaign : CampaignKPI.t)
    : list finding :=
  if zero_conversion_rule campaign then
    [(zero_conversion_campaign_issue campaign, zero_conversion_campaign_action campaign)]
  else
    match high_cpa_rule (CampaignKPI.cpa campaign) avg_account_cpa with
    | Some (c, a) => [(high_cpa_campaign_issue campaign c a, high_cpa_campaign_action campaign)]
    | None => []
    end.

Definition search_term_findings (term : SearchTermData.t) : list finding :=
  if wasteful_rule term then
    [(wasteful_search_term_issue term, add_negative_keyword_action term)]
  else
    match low_conversion_rule term with
    | Some r => [(low_conversion_search_term_issue term r, review_search_term_action term)]
    | None => []
    end.

(** The two lists a list of findings splits into. *)
Definition unzip (fs : list finding) : findings := (fs.*1, fs.*2).

(** A finding whose action points back at its issue. *)
Definition paired (f : finding) : Prop :=
  RecommendedAction.related_issue_type f.2 = Issue.type f.1.

(** Equal length, and position by position the action names the type of the
    issue. *)
Definition parallel (out : findings) : Prop :=
  length out.1 = length out.2 ∧
  ∀ i issue action,
    out.1 !! i = Some issue → out.2 !! i = Some action →
    RecommendedAction.related_issue_type action = Issue.type issue.

(** ** Policy records *)

Definition required_keys : list string := ["ad_name"; "campaign_name"; "approval_status"].

Definition has_required_keys (policy_issue : gmap string PyVal) : bool :=
  forallb (λ key, bool_decide (is_Some (policy_issue !! key))) required_keys.

(** The first of the three subscripts that fails on a record, if any. *)
Definition missing_key (policy_issue : gmap string PyVal) : option string :=
  match policy_issue !! "ad_name", policy_issue !! "campaign_name",
        policy_issue !! "approval_status" with
  | None, _, _ => Some "ad_name"
  | Some _, None, _ => Some "campaign_name"
  | Some _, Some _, None => Some "approval_status"
  | Some _, Some _, Some _ => None
  end.

Fixpoint first_missing_key (policy_issues : list (gmap string PyVal)) : option string :=
  match policy_issues with
  | [] => None
  | policy_issue :: rest =>
      match missing_key policy_issue with
      | Some key => Some key
      | None => first_missing_key rest
      end
  end.

(** What the loop appends for a record that has the three keys. *)
Definition policy_finding (py_repr : PyVal → string) (policy_issue : gmap string PyVal)
    : finding :=
  (policy_limited_ad_issue py_repr policy_issue
     (default VNone (policy_issue !! "ad_name"))
     (default VNone (policy_issue !! "campaign_name"))
     (default VNone (policy_issue !! "approval_status")),
   fix_policy_issue_action py_repr (default VNone (policy_issue !! "ad_name"))).

(** ** Ranks *)

(** The four-step rank of a token. *)
Definition rank (token : string) : nat :=
  if decide (token = "high") then 0
  else if decide (token = "medium") then 1
  else if decide (token = "low") then 2
  else 3.

(** ** Runs of the orchestrator *)

(** The value of the protected block of [build_snapshot], as a function of
    what the providers return. *)
Definition live_result (py_repr : PyVal → string) (providers : Providers)
    (customer_id date_range : string) : result SnapshotResponse.t :=
  account_kpis ← ads_get_account_kpis providers customer_id date_range;
  campaign_kpis ← ads_get_campaign_kpis providers customer_id date_range;
  search_terms ← ads_get_search_terms providers customer_id date_range 10.0%float;
  policy_issues ← ads_get_policy_issues providers customer_id;
  disapproved_products ← mc_get_disapproved_products providers;
  from_policy ← analyze_policy_issues py_repr policy_issues;
  let from_products := analyze_disapproved_products disapproved_products in
  let from_campaigns := analyze_campaigns campaign_kpis account_kpis in
  let from_search_terms := analyze_search_terms search_terms in
  mret (SnapshotResponse.mk
          (Summary.mk date_range
             (AccountKpis.total_spend account_kpis)
             (AccountKpis.total_conversions account_kpis)
             (AccountKpis.average_cpa account_kpis)
             (AccountKpis.roas account_kpis)
             (AccountKpis.currency account_kpis))
          (sort_by_key severity_key
             (from_products.1 ++ from_campaigns.1 ++ from_search_terms.1 ++ from_policy.1))
          (sort_by_key priority_key
             (from_products.2 ++ from_campaigns.2 ++ from_search_terms.2 ++ from_policy.2))).

(** Some provider call, or the one detector that can raise, raises. *)
Definition live_failure (py_repr : PyVal → string) (providers : Providers)
    (customer_id date_range : string) : Prop :=
  (∃ e, ads_get_account_kpis providers customer_id date_range = Raise e)
  ∨ (∃ e, ads_get_campaign_kpis providers customer_id date_range = Raise e)
  ∨ (∃ e, ads_get_search_terms providers customer_id date_range 10.0%float = Raise e)
  ∨ (∃ e, ads_get_policy_issues providers customer_id = Raise e)
  ∨ (∃ e, mc_get_disapproved_products providers = Raise e)
  ∨ (∃ policy_issues e,
       ads_get_policy_issues providers customer_id = Ok policy_issues
       ∧ analyze_policy_issues py_repr policy_issues = Raise e).

(** The findings the four detectors emit, concatenated in the order
    products, campaigns, search terms, policy. *)
Definition emitted (disapproved_products : list DisapprovedProduct.t)
    (campaign_kpis : list CampaignKPI.t) (account_kpis : AccountKpis.t)
    (search_terms : list SearchTermData.t) (from_policy : findings) : findings :=
  ((analyze_disapproved_products disapproved_products).1
     ++ (analyze_campaigns campaign_kpis account_kpis).1
     ++ (analyze_search_terms search_terms).1 ++ from_policy.1,
   (analyze_disapproved_products disapproved_products).2
     ++ (analyze_campaigns campaign_kpis account_kpis).2
     ++ (analyze_search_terms search_terms).2 ++ from_policy.2).

(** ** Kinds of findings *)

(** The type and severity of an issue with the type and priority of its
    action, as the constructor calls of the four detectors pair them. *)
Definition finding_kinds : list (string * string * string * string) :=
  [("disapproved_product", "high", "fix_product_feed", "high");
   ("zero_conversion_campaign", "high", "optimize_campaign", "high");
   ("high_cpa_campaign", "medium", "optimize_campaign", "medium");
   ("wasteful_search_term", "medium", "add_negative_keyword", "medium");
   ("low_conversion_search_term", "low", "review_search_term", "low");
   ("policy_limited_ad", "medium", "fix_policy_issue", "medium")].

Definition kind_of (f : finding) : string * string * string * string :=
  (Issue.type f.1, Issue.severity f.1,
   RecommendedAction.action_type f.2, RecommendedAction.priority f.2).

(** An issue and an action that belong together: the action names the type
    of the issue and the two are of one of the six kinds. *)
Definition well_formed (f : finding) : Prop :=
  RecommendedAction.related_issue_type f.2 = Issue.type f.1
  ∧ kind_of f ∈ finding_kinds.

(** The provider calls of a run that reaches the detectors, in order. *)
Definition live_calls (customer_id date_range : string) : list ProviderCall :=
  [AdsGetAccountKpis customer_id date_range;
   AdsGetCampaignKpis customer_id date_range;
   AdsGetSearchTerms customer_id date_range 10.0%float;
   AdsGetPolicyIssues customer_id;
   McGetDisapprovedProducts].

(** The line the exception handler prints. *)
Definition fallback_message (py_repr : PyVal → string) (e : PyExn) : string :=
  "API Error: " +:+ exn_str py_repr e +:+ ". Falling back to demo mode.".

(** The first step of the protected block that raises, if any, with the
    number of provider calls made by then: the providers are called in the
    order of [live_calls] and the policy detector runs after all five have
    answered. *)
Definition failure_point (py_repr : PyVal → string) (providers : Providers)
    (customer_id date_range : string) : option (nat * PyExn) :=
  match ads_get_account_kpis providers customer_id date_range with
  | Raise e => Some (1, e)
  | Ok _ =>
  match ads_get_campaign_kpis providers customer_id date_range with
  | Raise e => Some (2, e)
  | Ok _ =>
  match ads_get_search_terms providers customer_id date_range 10.0%float with
  | Raise e => Some (3, e)
  | Ok _ =>
  match ads_get_policy_issues providers customer_id with
  | Raise e => Some (4, e)
  | Ok policy_issues =>
  match mc_get_disapproved_products providers with
  | Raise e => Some (5, e)
  | Ok _ =>
  match analyze_policy_issues py_repr policy_issues with
  | Raise e => Some (5, e)
  | Ok _ => None
  end end end end end end.

(** What a run returns once its protected block has raised [e]: the handler
    takes an [Exception], prints its line and returns the fallback report;
    what the handler does not take, and what its [print] raises, goes to the
    caller. *)
Definition after_failure (py_repr : PyVal → string) (stdout_write : string → result unit)
    (customer_id date_range : string) (e : PyExn) : result SnapshotResponse.t :=
  if is_exception e then
    match stdout_write (fallback_message py_repr e) with
    | Ok _ => Ok (build_demo_snapshot customer_id date_range)
    | Raise e' => Raise e'
    end
  else Raise e.

(** ** Sample data *)

(** A stand-in for [repr] on the sample data: exact on [None], booleans and
    integers, and on strings without quotes, backslashes or control
    characters; floats are shown with two decimals and lists are not
    rendered. *)
Definition sample_repr (v : PyVal) : string :=
  match v with
  | VNone => "None"
  | VBool b => if b then "True" else "False"
  | VInt z => pretty z
  | VFloat f => format_2f f
  | VStr s => "'" +:+ s +:+ "'"
  | VList _ => "[...]"
  end.

Definition initial_world : World := mkWorld [] [] 0 0.

(** A standard output that takes every line. *)
Definition sample_stdout (line : string) : result unit := Ok ().

(** A closed standard output. *)
Definition closed_stdout (line : string) : result unit :=
  Raise (ValueError "I/O operation on closed file.").

Definition live_settings : Settings := mkSettings (Some "dev-token").

Definition sample_account_kpis : AccountKpis.t :=
  AccountKpis.mk 1000 20 (Some 40%float) (Some 2.5%float) "USD".

Definition sample_campaigns : list CampaignKPI.t :=
  [CampaignKPI.mk "11" "Shopping - All" 500 5 (Some 100%float);
   CampaignKPI.mk "12" "Search - Brand" 51 0 None;
   CampaignKPI.mk "13" "Search - Generic" 300 10 (Some 30%float)].

Definition sample_search_terms : list SearchTermData.t :=
  [SearchTermData.mk "running shoes" 60 100 0.5 (Some 0.5%float);
   SearchTermData.mk "free shoes" 21 10 0 (Some 0%float)].

Definition sample_policy_issues : list (gmap string PyVal) :=
  [dict_literal
     [("ad_name", VStr "Spring sale");
      ("campaign_name", VStr "Search - Brand");
      ("approval_status", VStr "APPROVED_LIMITED");
      ("ad_id", VInt 77)]].

Definition sample_products : list DisapprovedProduct.t :=
  [DisapprovedProduct.mk "5521" "Premium Wireless Headphones" ["Invalid GTIN"; "Missing image"]].

Definition live_providers : Providers :=
  mkProviders
    (λ _ _, Ok sample_account_kpis)
    (λ _ _, Ok sample_campaigns)
    (λ _ _ _, Ok sample_search_terms)
    (λ _, Ok sample_policy_issues)
    (Ok sample_products).

(** The search-terms provider fails; the others answer. *)
Definition failing_providers : Providers :=
  mkProviders
    (λ _ _, Ok sample_account_kpis)
    (λ _ _, Ok sample_campaigns)
    (λ _ _ _, Raise (ProviderError "quota exceeded"))
    (λ _, Ok sample_policy_issues)
    (Ok sample_products).

Definition sample_policy_record : gmap string PyVal :=
  dict_literal
    [("ad_name", VStr "Spring sale");
     ("campaign_name", VStr "Search - Brand");
     ("approval_status", VStr "APPROVED_LIMITED")].

(** The search-terms provider is interrupted from the keyboard. *)
Definition interrupted_providers : Providers :=
  mkProviders
    (λ _ _, Ok sample_account_kpis)
    (λ _ _, Ok sample_campaigns)
    (λ _ _ _, Raise KeyboardInterrupt)
    (λ _, Ok sample_policy_issues)
    (Ok sample_products).

(** The response of a run over the sample providers. *)
Definition live_sample_response : SnapshotResponse.t :=
  match (build_snapshot sample_repr sample_stdout live_settings live_providers
           "123" "7d" initial_world).1 with
  | Ok response => response
  | Raise _ => build_demo_snapshot "123" "7d"
  end.

(** A term the spec's rule 2 describes but the detector passes over: rule 1
    does not match (one conversion), the rate is defined and below 1.0, the
    cost is above 50, and the rate is zero. *)
Definition zero_rate_term : SearchTermData.t :=
  SearchTermData.mk "trail shoes" 60 100000 1 (Some 0%float).


(** Account KPIs with no conversion: the average CPA is undefined. *)
Definition no_average_kpis : AccountKpis.t :=
  AccountKpis.mk 351 0 None None "USD".

Definition high_cpa_campaign_sample : CampaignKPI.t :=
  CampaignKPI.mk "11" "Shopping - All" 500 5 (Some 100%float).

Definition zero_conversion_campaign_sample : CampaignKPI.t :=
  CampaignKPI.mk "12" "Search - Brand" 51 0 None.

Definition wasteful_term_sample_term : SearchTermData.t :=
  SearchTermData.mk "free shoes" 21 10 0 (Some 0%float).

(** A policy record without its campaign name. *)
Definition nameless_policy_issue : gmap string PyVal :=
  dict_literal [("ad_name", VStr "Summer sale"); ("approval_status", VStr "DISAPPROVED")].


(** * Properties *)

(** ** Loops that append findings *)

Lemma foldl_appends {A : Type} (emit : A → list finding) (body : findings → A → findings) :
  (∀ acc x, body acc x = (acc.1 ++ (emit x).*1, acc.2 ++ (emit x).*2)) →
  ∀ l acc, foldl body acc l = (acc.1 ++ (l ≫= emit).*1, acc.2 ++ (l ≫= emit).*2).
Proof.
  intros Hbody l. induction l as [|x l IH]; intros [issues recs]; simpl.
  - by rewrite !app_nil_r.
  - rewrite IH, Hbody. simpl. by rewrite !fmap_app, !app_assoc.
Qed.

Lemma disapproved_product_body_appends acc product :
  disapproved_product_body acc product
  = (acc.1 ++ (product_findings product).*1, acc.2 ++ (product_findings product).*2).
Proof. by destruct acc. Qed.

Lemma campaign_body_appends avg acc campaign :
  campaign_body avg acc campaign
  = (acc.1 ++ (campaign_findings avg campaign).*1, acc.2 ++ (campaign_findings avg campaign).*2).
Proof.
  destruct acc as [issues recs]. unfold campaign_body, campaign_findings.
  destruct (zero_conversion_rule campaign); [done|].
  destruct (high_cpa_rule _ _) as [[c a]|]; simpl; [done|].
  by rewrite !app_nil_r.
Qed.

Lemma search_term_body_appends acc term :
  search_term_body acc term
  = (acc.1 ++ (search_term_findings term).*1, acc.2 ++ (search_term_findings term).*2).
Proof.
  destruct acc as [issues recs]. unfold search_term_body, search_term_findings.
  destruct (wasteful_rule term); [done|].
  destruct (low_conversion_rule term); simpl; [done|].
  by rewrite !app_nil_r.
Qed.

Lemma analyze_disapproved_products_unzip l :
  analyze_disapproved_products l = unzip (take 10 l ≫= product_findings).
Proof.
  unfold analyze_disapproved_products.
  by rewrite (foldl_appends product_findings) by apply disapproved_product_body_appends.
Qed.

Lemma analyze_campaigns_unzip l account_kpis :
  analyze_campaigns l account_kpis
  = unzip (l ≫= campaign_findings (AccountKpis.average_cpa account_kpis)).
Proof.
  unfold analyze_campaigns.
  by rewrite (foldl_appends (campaign_findings _)) by apply campaign_body_appends.
Qed.

Lemma analyze_search_terms_unzip l :
  analyze_search_terms l = unzip (take 15 l ≫= search_term_findings).
Proof.
  unfold analyze_search_terms.
  by rewrite (foldl_appends search_term_findings) by apply search_term_body_appends.
Qed.

Lemma unzip_parallel fs : Forall paired fs → parallel (unzip fs).
Proof.
  intros Hfs. split; simpl.
  - by rewrite !length_fmap.
  - intros i issue action Hi Ha.
    rewrite list_lookup_fmap in Hi. rewrite list_lookup_fmap in Ha.
    destruct (fs !! i) as [[issue' action']|] eqn:Hf; simplify_eq/=.
    by apply (Forall_lookup_1 _ _ _ _ Hfs Hf).
Qed.

Lemma bind_Forall {A B : Type} (P : B → Prop) (f : A → list B) (l : list A) :
  (∀ x, Forall P (f x)) → Forall P (l ≫= f).
Proof.
  intros Hf. induction l as [|x l IH]; simpl; [constructor|].
  apply Forall_app; auto.
Qed.

Lemma product_findings_paired product : Forall paired (product_findings product).
Proof. by repeat constructor. Qed.

Lemma campaign_findings_paired avg campaign : Forall paired (campaign_findings avg campaign).
Proof.
  unfold campaign_findings.
  destruct (zero_conversion_rule campaign); [by repeat constructor|].
  destruct (high_cpa_rule _ _) as [[c a]|]; by repeat constructor.
Qed.

Lemma search_term_findings_paired term : Forall paired (search_term_findings term).
Proof.
  unfold search_term_findings.
  destruct (wasteful_rule term); [by repeat constructor|].
  destruct (low_conversion_rule term); by repeat constructor.
Qed.

(** ** The policy loop *)

Lemma policy_body_cases py_repr acc policy_issue :
  policy_body py_repr acc policy_issue =
    match missing_key policy_issue with
    | Some key => Raise (KeyError key)
    | None => Ok (acc.1 ++ [(policy_finding py_repr policy_issue).1],
                  acc.2 ++ [(policy_finding py_repr policy_issue).2])
    end.
Proof.
  destruct acc as [issues recs].
  unfold policy_body, missing_key, policy_finding, getitem.
  destruct (policy_issue !! "ad_name"); simpl; [|done].
  destruct (policy_issue !! "campaign_name"); simpl; [|done].
  by destruct (policy_issue !! "approval_status").
Qed.

Lemma for_each_policy_body py_repr l : ∀ acc,
  for_each (policy_body py_repr) acc l =
    match first_missing_key l with
    | Some key => Raise (KeyError key)
    | None => Ok (acc.1 ++ (policy_finding py_repr <$> l).*1,
                  acc.2 ++ (policy_finding py_repr <$> l).*2)
    end.
Proof.
  induction l as [|r l IH]; intros [issues recs]; cbn [for_each first_missing_key].
  - simpl. by rewrite !app_nil_r.
  - rewrite policy_body_cases. destruct (missing_key r); simpl; [done|].
    rewrite IH. destruct (first_missing_key l); simpl; [done|].
    by rewrite <- !app_assoc.
Qed.

Lemma analyze_policy_issues_cases py_repr l :
  analyze_policy_issues py_repr l =
    match first_missing_key (take 10 l) with
    | Some key => Raise (KeyError key)
    | None => Ok (unzip (policy_finding py_repr <$> take 10 l))
    end.
Proof. unfold analyze_policy_issues. by rewrite for_each_policy_body. Qed.

Lemma missing_key_required policy_issue key :
  missing_key policy_issue = Some key → key ∈ required_keys.
Proof.
  unfold missing_key, required_keys.
  destruct (policy_issue !! "ad_name"), (policy_issue !! "campaign_name"),
    (policy_issue !! "approval_status"); intros; simplify_eq; set_solver.
Qed.

Lemma missing_key_has_required_keys policy_issue :
  has_required_keys policy_issue = true ↔ missing_key policy_issue = None.
Proof.
  unfold has_required_keys, missing_key, required_keys. simpl.
  destruct (policy_issue !! "ad_name"), (policy_issue !! "campaign_name"),
    (policy_issue !! "approval_status"); simpl; split; intros H; try done;
    repeat match goal with
    | H : context [bool_decide ?P] |- _ => destruct (bool_decide_reflect P) as [[? ?]|?]; simplify_eq/=
    end.
Qed.

Lemma first_missing_key_required l key :
  first_missing_key l = Some key → key ∈ required_keys.
Proof.
  induction l as [|r l IH]; simpl; [done|].
  destruct (missing_key r) eqn:Hr; [|done].
  intros; simplify_eq. by eapply missing_key_required.
Qed.

Lemma first_missing_key_forallb l :
  forallb has_required_keys l = true ↔ first_missing_key l = None.
Proof.
  induction l as [|r l IH]; simpl; [done|].
  rewrite andb_true_iff, missing_key_has_required_keys, IH.
  destruct (missing_key r); intuition congruence.
Qed.

Lemma policy_finding_paired py_repr l : Forall paired (policy_finding py_repr <$> l).
Proof. apply Forall_fmap, Forall_forall. by intros r _. Qed.

(** ** The stable sort *)

Section SortByKey.
Context {A : Type} (key : A → nat).

Lemma insert_by_key_perm x l : insert_by_key key x l ≡ₚ x :: l.
Proof.
  induction l as [|y l IH]; simpl; [done|].
  destruct (key y <? key x); [|done].
  by rewrite IH, Permutation_swap.
Qed.

Lemma sort_by_key_perm l : sort_by_key key l ≡ₚ l.
Proof.
  induction l as [|x l IH]; simpl; [done|].
  by rewrite insert_by_key_perm, IH.
Qed.

Lemma insert_by_key_sorted x l :
  StronglySorted (λ a b, key a ≤ key b) l →
  StronglySorted (λ a b, key a ≤ key b) (insert_by_key key x l).
Proof.
  induction 1 as [|y l Hl IH Hy]; simpl.
  - repeat constructor.
  - destruct (Nat.ltb_spec (key y) (key x)) as [Hlt|Hge].
    + constructor; [done|].
      rewrite insert_by_key_perm. constructor; [lia|done].
    + constructor; [by constructor|].
      constructor; [done|].
      eapply Forall_impl; [exact Hy|]. simpl. intros; lia.
Qed.

Lemma sort_by_key_sorted l : StronglySorted (λ a b, key a ≤ key b) (sort_by_key key l).
Proof.
  induction l as [|x l IH]; simpl; [constructor|].
  by apply insert_by_key_sorted.
Qed.

(** Insertion never moves [x] past an element with the same key. *)
Lemma filter_insert_by_key k x l :
  filter (λ a, key a = k) (insert_by_key key x l) = filter (λ a, key a = k) (x :: l).
Proof.
  induction l as [|y l IH]; simpl; [done|].
  destruct (Nat.ltb_spec (key y) (key x)) as [Hlt|Hge]; [|done].
  rewrite filter_cons, IH, !filter_cons.
  repeat case_decide; try done; lia.
Qed.

(** Stability: the findings of any one rank come out in the order they went
    in. *)
Lemma sort_by_key_stable k l :
  filter (λ a, key a = k) (sort_by_key key l) = filter (λ a, key a = k) l.
Proof.
  induction l as [|x l IH]; simpl; [done|].
  by rewrite filter_insert_by_key, !filter_cons, IH.
Qed.

(** Two sorted lists with the same findings of every rank, in the same
    order, are equal. *)
Lemma sorted_filters_eq l1 : ∀ l2,
  StronglySorted (λ a b, key a ≤ key b) l1 →
  StronglySorted (λ a b, key a ≤ key b) l2 →
  (∀ k, filter (λ a, key a = k) l1 = filter (λ a, key a = k) l2) →
  l1 = l2.
Proof.
  induction l1 as [|x l1 IH]; intros [|y l2] Hs1 Hs2 Hf.
  - done.
  - specialize (Hf (key y)). rewrite filter_nil, filter_cons_True in Hf; done.
  - specialize (Hf (key x)). rewrite filter_nil, filter_cons_True in Hf; done.
  - apply StronglySorted_inv in Hs1 as [Hs1 Hx].
    apply StronglySorted_inv in Hs2 as [Hs2 Hy].
    assert (key x = key y) as Hkey.
    { apply Nat.le_antisymm.
      - assert (y ∈ x :: l1) as [->|Hin]%elem_of_cons; [|done|].
        { eapply (list_elem_of_filter (λ a, key a = key y)).
          rewrite Hf, filter_cons_True by done. by left. }
        by apply (proj1 (Forall_forall _ _) Hx).
      - assert (x ∈ y :: l2) as [->|Hin]%elem_of_cons; [|done|].
        { eapply (list_elem_of_filter (λ a, key a = key x)).
          rewrite <- Hf, filter_cons_True by done. by left. }
        by apply (proj1 (Forall_forall _ _) Hy). }
    assert (x = y ∧ ∀ k, filter (λ a, key a = k) l1 = filter (λ a, key a = k) l2)
      as [-> Hf'].
    { split.
      - specialize (Hf (key x)).
        rewrite !filter_cons_True in Hf by done. congruence.
      - intros k. specialize (Hf k). rewrite !filter_cons in Hf.
        rewrite <- Hkey in Hf. case_decide; congruence. }
    f_equal. by apply IH.
Qed.

(** Hence every stable sort by [key] returns what [sort_by_key] returns. *)
Lemma sort_by_key_unique l l' :
  StronglySorted (λ a b, key a ≤ key b) l' →
  (∀ k, filter (λ a, key a = k) l' = filter (λ a, key a = k) l) →
  l' = sort_by_key key l.
Proof.
  intros Hsorted Hstable. apply sorted_filters_eq; [done|apply sort_by_key_sorted|].
  intros k. by rewrite sort_by_key_stable.
Qed.

End SortByKey.

Lemma StronglySorted_weaken {A : Type} (R R' : A → A → Prop) (l : list A) :
  (∀ a b, R a b → R' a b) → StronglySorted R l → StronglySorted R' l.
Proof.
  intros HR. induction 1 as [|x l Hl IH Hx]; constructor; [done|].
  eapply Forall_impl; [exact Hx|]. simpl. auto.
Qed.

Lemma severity_key_rank x : severity_key x = rank (Issue.severity x).
Proof.
  unfold severity_key, severity_order, rank.
  repeat case_decide; try (match goal with H : _ = _ |- _ => rewrite H end; done).
  by rewrite !lookup_insert_ne, lookup_empty by done.
Qed.

Lemma priority_key_rank x : priority_key x = rank (RecommendedAction.priority x).
Proof.
  unfold priority_key, priority_order, rank.
  repeat case_decide; try (match goal with H : _ = _ |- _ => rewrite H end; done).
  by rewrite !lookup_insert_ne, lookup_empty by done.
Qed.

Lemma rank_le_3 token : rank token ≤ 3.
Proof. unfold rank. repeat case_decide; lia. Qed.

(** ** The orchestrator *)

Lemma build_snapshot_value py_repr stdout_write settings providers customer_id date_range w :
  (build_snapshot py_repr stdout_write settings providers customer_id date_range w).1 =
    if token_missing settings then Ok (build_demo_snapshot customer_id date_range)
    else match live_result py_repr providers customer_id date_range with
         | Ok response => Ok response
         | Raise e => after_failure py_repr stdout_write customer_id date_range e
         end.
Proof.
  unfold build_snapshot, live_result, after_failure.
  destruct (token_missing settings); [done|].
  unfold try_except, call, lift, print, fallback_message, mbind, M_bind, result_bind.
  destruct (ads_get_account_kpis _ _ _) as [account_kpis|e].
  2: { destruct (is_exception e); [|done]. by destruct (stdout_write _). }
  destruct (ads_get_campaign_kpis _ _ _) as [campaign_kpis|e].
  2: { destruct (is_exception e); [|done]. by destruct (stdout_write _). }
  destruct (ads_get_search_terms _ _ _ _) as [search_terms|e].
  2: { destruct (is_exception e); [|done]. by destruct (stdout_write _). }
  destruct (ads_get_policy_issues _ _) as [policy_issues|e].
  2: { destruct (is_exception e); [|done]. by destruct (stdout_write _). }
  destruct (mc_get_disapproved_products _) as [disapproved_products|e].
  2: { destruct (is_exception e); [|done]. by destruct (stdout_write _). }
  destruct (analyze_disapproved_products _) as [ip rp].
  destruct (analyze_campaigns _ _) as [ic rc].
  destruct (analyze_search_terms _) as [ist rst].
  destruct (analyze_policy_issues _ _) as [[ipol rpol]|e].
  2: { destruct (is_exception e); [|done]. by destruct (stdout_write _). }
  simpl. by rewrite <- !app_assoc.
Qed.

Lemma live_failure_raises py_repr providers customer_id date_range :
  live_failure py_repr providers customer_id date_range →
  ∃ e, live_result py_repr providers customer_id date_range = Raise e.
Proof.
  unfold live_failure, live_result, mbind, result_bind.
  intros H.
  destruct (ads_get_account_kpis _ _ _); [|by eauto].
  destruct (ads_get_campaign_kpis _ _ _); [|by eauto].
  destruct (ads_get_search_terms _ _ _ _); [|by eauto].
  destruct (ads_get_policy_issues _ _) as [policy_issues|]; [|by eauto].
  destruct (mc_get_disapproved_products _); [|by eauto].
  destruct (analyze_policy_issues _ _) eqn:Hpol; [|by eauto].
  destruct H as [[e H]|[[e H]|[[e H]|[[e H]|[[e H]|(pol & e & H & H')]]]]]; simplify_eq.
  congruence.
Qed.

Lemma failure_point_live_result py_repr providers customer_id date_range n e :
  failure_point py_repr providers customer_id date_range = Some (n, e) →
  live_result py_repr providers customer_id date_range = Raise e.
Proof.
  unfold failure_point, live_result, mbind, result_bind.
  destruct (ads_get_account_kpis _ _ _); [|by intros [= _ ->]].
  destruct (ads_get_campaign_kpis _ _ _); [|by intros [= _ ->]].
  destruct (ads_get_search_terms _ _ _ _); [|by intros [= _ ->]].
  destruct (ads_get_policy_issues _ _); [|by intros [= _ ->]].
  destruct (mc_get_disapproved_products _); [|by intros [= _ ->]].
  destruct (analyze_policy_issues _ _); [done|by intros [= _ ->]].
Qed.

Lemma live_result_failure_point py_repr providers customer_id date_range e :
  live_result py_repr providers customer_id date_range = Raise e →
  ∃ n, failure_point py_repr providers customer_id date_range = Some (n, e).
Proof.
  unfold failure_point, live_result, mbind, result_bind.
  destruct (ads_get_account_kpis _ _ _); [|intros [= ->]; by eexists].
  destruct (ads_get_campaign_kpis _ _ _); [|intros [= ->]; by eexists].
  destruct (ads_get_search_terms _ _ _ _); [|intros [= ->]; by eexists].
  destruct (ads_get_policy_issues _ _); [|intros [= ->]; by eexists].
  destruct (mc_get_disapproved_products _); [|intros [= ->]; by eexists].
  destruct (analyze_policy_issues _ _); [done|intros [= ->]; by eexists].
Qed.

(** * The claims *)

(** C1, amended: when a developer token is configured and a provider call or
    a detector step raises, the exception [e] that ends the protected block
    decides the run.  If [e] derives from [Exception] and the handler's line
    is printed, [build_snapshot] returns the fallback report,
    [build_demo_snapshot customer_id date_range]; if [e] does not derive from
    [Exception], it goes to the caller.  Nothing else reaches the caller but
    what the handler's [print] raises. *)
Theorem build_snapshot_falls_back
    py_repr stdout_write settings providers (customer_id date_range : string) (w : World) :
  (token_missing settings = false →
   live_failure py_repr providers customer_id date_range →
   ∃ n e,
     failure_point py_repr providers customer_id date_range = Some (n, e)
     ∧ (is_exception e = true →
        stdout_write (fallback_message py_repr e) = Ok () →
        (build_snapshot py_repr stdout_write settings providers customer_id date_range w).1
        = Ok (build_demo_snapshot customer_id date_range))
     ∧ (is_exception e = false →
        (build_snapshot py_repr stdout_write settings providers customer_id date_range w).1
        = Raise e))
  ∧ (∀ raised,
       (build_snapshot py_repr stdout_write settings providers customer_id date_range w).1
       = Raise raised →
       token_missing settings = false
       ∧ ∃ n e,
           failure_point py_repr providers customer_id date_range = Some (n, e)
           ∧ ((is_exception e = false ∧ raised = e)
              ∨ (is_exception e = true
                 ∧ stdout_write (fallback_message py_repr e) = Raise raised))).
Proof.
  rewrite build_snapshot_value. split.
  - intros -> [e He]%live_failure_raises.
    destruct (live_result_failure_point _ _ _ _ _ He) as [n Hn].
    exists n, e. rewrite He. unfold after_failure.
    split; [done|]. split; [by intros -> ->|by intros ->].
  - intros raised. destruct (token_missing settings); [done|].
    destruct (live_result _ _ _ _) as [response|e] eqn:He; [done|].
    destruct (live_result_failure_point _ _ _ _ _ He) as [n Hn].
    unfold after_failure. intros Hraised. split; [done|]. exists n, e. split; [done|].
    destruct (is_exception e); [|left; by simplify_eq].
    right. split; [done|]. by destruct (stdout_write _); simplify_eq.
Qed.

(** C2: a campaign with [conversions == 0] and [spend > 50] contributes
    exactly one issue, of type zero_conversion_campaign and severity high,
    with one optimize_campaign action of priority high, whatever its CPA and
    the account average are; it never contributes a high_cpa_campaign
    issue.  The campaigns before and after it contribute what they
    contribute on their own. *)
Theorem zero_conversion_campaign_exclusive
    (before after : list CampaignKPI.t) (campaign : CampaignKPI.t)
    (account_kpis : AccountKpis.t) :
  PrimFloat.eqb (CampaignKPI.conversions campaign) 0 = true →
  PrimFloat.ltb 50 (CampaignKPI.spend campaign) = true →
  analyze_campaigns (before ++ campaign :: after) account_kpis
  = ((analyze_campaigns before account_kpis).1
       ++ [zero_conversion_campaign_issue campaign]
       ++ (analyze_campaigns after account_kpis).1,
     (analyze_campaigns before account_kpis).2
       ++ [zero_conversion_campaign_action campaign]
       ++ (analyze_campaigns after account_kpis).2)
  ∧ Issue.type (zero_conversion_campaign_issue campaign) = "zero_conversion_campaign"
  ∧ Issue.type (zero_conversion_campaign_issue campaign) ≠ "high_cpa_campaign"
  ∧ Issue.severity (zero_conversion_campaign_issue campaign) = "high"
  ∧ RecommendedAction.action_type (zero_conversion_campaign_action campaign)
    = "optimize_campaign"
  ∧ RecommendedAction.priority (zero_conversion_campaign_action campaign) = "high".
Proof.
  intros Hconv Hspend. split; [|done].
  rewrite !analyze_campaigns_unzip. unfold unzip. simpl.
  rewrite bind_app, bind_cons, !fmap_app.
  assert (campaign_findings (AccountKpis.average_cpa account_kpis) campaign
          = [(zero_conversion_campaign_issue campaign,
              zero_conversion_campaign_action campaign)]) as ->; [|done].
  unfold campaign_findings, zero_conversion_rule. by rewrite Hconv, Hspend.
Qed.

(** C3: on the live path the issues of the response are the emitted issues
    sorted by severity rank (high 0, medium 1, low 2, anything else 3), and
    the actions are the emitted actions sorted by priority rank.  Each list
    is a permutation of what was emitted, is in ascending rank order, and is
    stable: the findings of any one rank keep their emission order.  An
    unrecognised token has rank 3, the largest, and raises nothing. *)
Theorem aggregation_stable_sort
    py_repr stdout_write settings providers (customer_id date_range : string) (w : World)
    account_kpis campaign_kpis search_terms policy_issues disapproved_products
    (from_policy : findings) :
  token_missing settings = false →
  ads_get_account_kpis providers customer_id date_range = Ok account_kpis →
  ads_get_campaign_kpis providers customer_id date_range = Ok campaign_kpis →
  ads_get_search_terms providers customer_id date_range 10.0%float = Ok search_terms →
  ads_get_policy_issues providers customer_id = Ok policy_issues →
  mc_get_disapproved_products providers = Ok disapproved_products →
  analyze_policy_issues py_repr policy_issues = Ok from_policy →
  ∃ response,
    (build_snapshot py_repr stdout_write settings providers customer_id date_range w).1 = Ok response
    ∧ SnapshotResponse.top_issues response
      = sort_by_key severity_key
          (emitted disapproved_products campaign_kpis account_kpis search_terms from_policy).1
    ∧ SnapshotResponse.recommended_actions response
      = sort_by_key priority_key
          (emitted disapproved_products campaign_kpis account_kpis search_terms from_policy).2
    ∧ SnapshotResponse.top_issues response
      ≡ₚ (emitted disapproved_products campaign_kpis account_kpis search_terms from_policy).1
    ∧ SnapshotResponse.recommended_actions response
      ≡ₚ (emitted disapproved_products campaign_kpis account_kpis search_terms from_policy).2
    ∧ StronglySorted (λ a b, rank (Issue.severity a) ≤ rank (Issue.severity b))
        (SnapshotResponse.top_issues response)
    ∧ StronglySorted
        (λ a b, rank (RecommendedAction.priority a) ≤ rank (RecommendedAction.priority b))
        (SnapshotResponse.recommended_actions response)
    ∧ (∀ k, filter (λ x, rank (Issue.severity x) = k) (SnapshotResponse.top_issues response)
            = filter (λ x, rank (Issue.severity x) = k)
                (emitted disapproved_products campaign_kpis account_kpis search_terms
                   from_policy).1)
    ∧ (∀ k, filter (λ x, rank (RecommendedAction.priority x) = k)
              (SnapshotResponse.recommended_actions response)
            = filter (λ x, rank (RecommendedAction.priority x) = k)
                (emitted disapproved_products campaign_kpis account_kpis search_terms
                   from_policy).2)
    ∧ rank "high" = 0 ∧ rank "medium" = 1 ∧ rank "low" = 2
    ∧ (∀ token, token ∉ ["high"; "medium"; "low"] → rank token = 3)
    ∧ (∀ token, rank token ≤ 3).
Proof.
  intros Htoken Hak Hck Hst Hpol Hdp Hfp.
  eexists. split.
  { rewrite build_snapshot_value, Htoken. unfold live_result.
    rewrite Hak, Hck, Hst, Hpol, Hdp. simpl. rewrite Hfp. simpl. reflexivity. }
  simpl. unfold emitted. simpl.
  split; [done|]. split; [done|].
  split; [apply sort_by_key_perm|]. split; [apply sort_by_key_perm|].
  split.
  { apply (StronglySorted_weaken (λ a b, severity_key a ≤ severity_key b));
      [|apply sort_by_key_sorted].
    intros a b. by rewrite !severity_key_rank. }
  split.
  { apply (StronglySorted_weaken (λ a b, priority_key a ≤ priority_key b));
      [|apply sort_by_key_sorted].
    intros a b. by rewrite !priority_key_rank. }
  split.
  { intros k.
    rewrite !(list_filter_iff (λ x, rank (Issue.severity x) = k) (λ x, severity_key x = k))
      by (intros x; by rewrite severity_key_rank).
    apply sort_by_key_stable. }
  split.
  { intros k.
    rewrite !(list_filter_iff (λ x, rank (RecommendedAction.priority x) = k)
                (λ x, priority_key x = k))
      by (intros x; by rewrite priority_key_rank).
    apply sort_by_key_stable. }
  repeat split; try done; [|apply rank_le_3].
  intros token Htok. unfold rank.
  repeat case_decide; try done; subst; set_solver.
Qed.

Lemma bind_singleton_lookup {A : Type} (emit : A → list finding) (l : list A) x f :
  x ∈ l → emit x = [f] → ∃ i, (l ≫= emit) !! i = Some f.
Proof.
  intros Hx Hemit. apply list_elem_of_lookup, list_elem_of_bind.
  exists x. split; [|done]. rewrite Hemit. by left.
Qed.

(** C4, amended: a processed search term that rule 1 does not match and whose
    conversion rate is defined, nonzero, below 1.0, with cost above 50, gets
    a low_conversion_search_term issue of severity low and, at the same
    position, a review_search_term action of priority low. *)
Theorem low_conversion_search_term_emitted
    (search_terms : list SearchTermData.t) (term : SearchTermData.t) (rate : float) :
  term ∈ take 15 search_terms →
  wasteful_rule term = false →
  SearchTermData.conversion_rate term = Some rate →
  PrimFloat.eqb rate 0 = false →
  PrimFloat.ltb rate 1 = true →
  PrimFloat.ltb 50 (SearchTermData.cost term) = true →
  ∃ i issue action,
    (analyze_search_terms search_terms).1 !! i = Some issue
    ∧ (analyze_search_terms search_terms).2 !! i = Some action
    ∧ issue = low_conversion_search_term_issue term rate
    ∧ action = review_search_term_action term
    ∧ Issue.type issue = "low_conversion_search_term"
    ∧ Issue.severity issue = "low"
    ∧ RecommendedAction.action_type action = "review_search_term"
    ∧ RecommendedAction.priority action = "low".
Proof.
  intros Hin Hrule1 Hrate Hnonzero Hlow Hcost.
  assert (search_term_findings term
          = [(low_conversion_search_term_issue term rate, review_search_term_action term)])
    as Hemit.
  { unfold search_term_findings, low_conversion_rule, float_truthy.
    by rewrite Hrule1, Hrate, Hnonzero, Hlow, Hcost. }
  destruct (bind_singleton_lookup _ _ _ _ Hin Hemit) as [i Hi].
  exists i, (low_conversion_search_term_issue term rate), (review_search_term_action term).
  rewrite analyze_search_terms_unzip. unfold unzip. simpl.
  rewrite !list_lookup_fmap, Hi. done.
Qed.

(** C5: the product detector reports the first ten products, one issue and
    one action each, in input order: the issue at position [i] is the issue
    of the [i]-th product, for [i] below ten, and there is none from ten on.
    Twelve products give the ten issues of the first ten.  Every issue has
    type disapproved_product and severity high; its description names the
    product's title, id and first reason, and its metadata holds the
    product's id, title and reasons, so that different products give
    different issues.  No product gives no finding. *)
Theorem disapproved_products_truncation :
  (∀ l, analyze_disapproved_products l
        = (disapproved_product_issue <$> take 10 l, fix_product_feed_action <$> take 10 l))
  ∧ (∀ l, length (analyze_disapproved_products l).1 = length l `min` 10)
  ∧ (∀ p1 p2 p3 p4 p5 p6 p7 p8 p9 p10 p11 p12,
       (analyze_disapproved_products [p1; p2; p3; p4; p5; p6; p7; p8; p9; p10; p11; p12]).1
       = disapproved_product_issue <$> [p1; p2; p3; p4; p5; p6; p7; p8; p9; p10])
  ∧ (∀ product,
       Issue.type (disapproved_product_issue product) = "disapproved_product"
       ∧ Issue.severity (disapproved_product_issue product) = "high")
  ∧ analyze_disapproved_products [] = ([], [])
  ∧ (∀ (l : list DisapprovedProduct.t) (i : nat),
       (analyze_disapproved_products l).1 !! i
       = (if decide (i < 10) then disapproved_product_issue <$> l !! i else None)
       ∧ (analyze_disapproved_products l).2 !! i
         = (if decide (i < 10) then fix_product_feed_action <$> l !! i else None))
  ∧ (∀ product,
       Issue.description (disapproved_product_issue product)
       = match DisapprovedProduct.issues product with
         | [] =>
             "Product '" +:+ DisapprovedProduct.title product +:+ "' (ID: "
               +:+ DisapprovedProduct.product_id product +:+ ") is disapproved"
         | reason :: _ =>
             ("Product '" +:+ DisapprovedProduct.title product +:+ "' (ID: "
                +:+ DisapprovedProduct.product_id product +:+ ") is disapproved")
               +:+ ": " +:+ reason
         end
       ∧ Issue.metadata (disapproved_product_issue product)
         = <["issues" := VList (DisapprovedProduct.issues product)]>
             (<["product_title" := VStr (DisapprovedProduct.title product)]>
                (<["product_id" := VStr (DisapprovedProduct.product_id product)]> ∅))
       ∧ Issue.metadata (disapproved_product_issue product) !! "product_id"
         = Some (VStr (DisapprovedProduct.product_id product))
       ∧ Issue.metadata (disapproved_product_issue product) !! "product_title"
         = Some (VStr (DisapprovedProduct.title product))
       ∧ Issue.metadata (disapproved_product_issue product) !! "issues"
         = Some (VList (DisapprovedProduct.issues product))
       ∧ fix_product_feed_action product
         = RecommendedAction.mk "fix_product_feed"
             ("Fix product data for '" +:+ DisapprovedProduct.title product
                +:+ "' and request a review in Merchant Center")
             "high" "disapproved_product")
  ∧ (∀ p q, disapproved_product_issue p = disapproved_product_issue q → p = q).
Proof.
  assert (∀ l, analyze_disapproved_products l
               = (disapproved_product_issue <$> take 10 l,
                  fix_product_feed_action <$> take 10 l)) as Heq.
  { intros l. rewrite analyze_disapproved_products_unzip. unfold unzip.
    f_equal; induction (take 10 l) as [|p l' IH]; [done| |done|];
      by rewrite bind_cons, fmap_app, IH. }
  split; [done|]. split.
  { intros l. rewrite Heq. simpl. by rewrite length_fmap, length_take, Nat.min_comm. }
  split; [intros; by rewrite Heq|]. split; [done|]. split; [done|].
  split.
  { intros l i. rewrite Heq. simpl. rewrite !list_lookup_fmap.
    case_decide.
    - by rewrite lookup_take_lt.
    - by rewrite lookup_take_ge by lia. }
  split; [intros [id title reasons]; by destruct reasons|].
  intros [id1 title1 reasons1] [id2 title2 reasons2] Hissue.
  apply (f_equal Issue.metadata) in Hissue.
  pose proof (f_equal (λ m, m !! "product_id") Hissue) as Hid.
  pose proof (f_equal (λ m, m !! "product_title") Hissue) as Htitle.
  pose proof (f_equal (λ m, m !! "issues") Hissue) as Hreasons.
  vm_compute in Hid, Htitle, Hreasons. congruence.
Qed.

(** C6: the policy detector looks at the first ten records only.  If each of
    them has the keys ad_name, campaign_name and approval_status, it returns
    one policy_limited_ad issue of severity medium per record, whose metadata
    is the record itself, and one fix_policy_issue action of priority medium
    per issue.  Otherwise it raises a [KeyError] for one of the three keys:
    no record is skipped. *)
Theorem policy_issues_contract py_repr (policy_issues : list (gmap string PyVal)) :
  if forallb has_required_keys (take 10 policy_issues) then
    ∃ issues recommendations,
      analyze_policy_issues py_repr policy_issues = Ok (issues, recommendations)
      ∧ Forall2 (λ record issue,
                   Issue.type issue = "policy_limited_ad"
                   ∧ Issue.severity issue = "medium"
                   ∧ Issue.metadata issue = record)
          (take 10 policy_issues) issues
      ∧ Forall2 (λ (issue : Issue.t) action,
                   RecommendedAction.action_type action = "fix_policy_issue"
                   ∧ RecommendedAction.priority action = "medium"
                   ∧ RecommendedAction.related_issue_type action = Issue.type issue)
          issues recommendations
  else
    ∃ key,
      analyze_policy_issues py_repr policy_issues = Raise (KeyError key)
      ∧ key ∈ required_keys.
Proof.
  rewrite analyze_policy_issues_cases.
  destruct (forallb _ _) eqn:Hkeys.
  - apply first_missing_key_forallb in Hkeys. rewrite Hkeys.
    eexists _, _. split; [reflexivity|].
    generalize (take 10 policy_issues). intros l.
    split; induction l as [|r l IH]; simpl; constructor; done.
  - destruct (first_missing_key _) as [key|] eqn:Hmiss.
    + exists key. split; [done|]. by eapply first_missing_key_required.
    + apply first_missing_key_forallb in Hmiss. congruence.
Qed.

(** C7: each detector returns two lists of equal length in which, position
    by position, the action names the type of the issue; the policy detector
    does so whenever it returns, and it raises only on a record that lacks a
    required key.  Every loop iteration appends to both lists together: the
    issues and the actions of the same findings.  So the output of a
    detector is the list of the findings of its inputs, in input order, split
    into its issues and its actions: the issue and the action at a position
    are the two halves of one finding, made in one iteration from one
    input. *)
Theorem detector_outputs_parallel py_repr :
  (∀ l, parallel (analyze_disapproved_products l))
  ∧ (∀ l account_kpis, parallel (analyze_campaigns l account_kpis))
  ∧ (∀ l, parallel (analyze_search_terms l))
  ∧ (∀ l, match analyze_policy_issues py_repr l with
          | Ok out => parallel out
          | Raise _ => forallb has_required_keys (take 10 l) = false
          end)
  ∧ (∀ acc product, ∃ fs,
       disapproved_product_body acc product = (acc.1 ++ fs.*1, acc.2 ++ fs.*2)
       ∧ Forall paired fs)
  ∧ (∀ avg acc campaign, ∃ fs,
       campaign_body avg acc campaign = (acc.1 ++ fs.*1, acc.2 ++ fs.*2)
       ∧ Forall paired fs)
  ∧ (∀ acc term, ∃ fs,
       search_term_body acc term = (acc.1 ++ fs.*1, acc.2 ++ fs.*2)
       ∧ Forall paired fs)
  ∧ (∀ acc record,
       match policy_body py_repr acc record with
       | Ok acc' => ∃ fs, acc' = (acc.1 ++ fs.*1, acc.2 ++ fs.*2) ∧ Forall paired fs
       | Raise _ => has_required_keys record = false
       end)
  ∧ (∀ l, analyze_disapproved_products l = unzip (take 10 l ≫= product_findings))
  ∧ (∀ l account_kpis,
       analyze_campaigns l account_kpis
       = unzip (l ≫= campaign_findings (AccountKpis.average_cpa account_kpis)))
  ∧ (∀ l, analyze_search_terms l = unzip (take 15 l ≫= search_term_findings))
  ∧ (∀ l,
       analyze_policy_issues py_repr l
       = match first_missing_key (take 10 l) with
         | Some key => Raise (KeyError key)
         | None => Ok (unzip (policy_finding py_repr <$> take 10 l))
         end)
  ∧ (∀ (fs : list finding) i,
       (unzip fs).1 !! i = fst <$> fs !! i ∧ (unzip fs).2 !! i = snd <$> fs !! i)
  ∧ (∀ product,
       product_findings product
       = [(disapproved_product_issue product, fix_product_feed_action product)])
  ∧ (∀ avg campaign,
       campaign_findings avg campaign = []
       ∨ campaign_findings avg campaign
         = [(zero_conversion_campaign_issue campaign,
             zero_conversion_campaign_action campaign)]
       ∨ ∃ c a,
           campaign_findings avg campaign
           = [(high_cpa_campaign_issue campaign c a, high_cpa_campaign_action campaign)])
  ∧ (∀ term,
       search_term_findings term = []
       ∨ search_term_findings term
         = [(wasteful_search_term_issue term, add_negative_keyword_action term)]
       ∨ ∃ rate,
           search_term_findings term
           = [(low_conversion_search_term_issue term rate, review_search_term_action term)])
  ∧ (∀ record ad_name campaign_name approval_status,
       record !! "ad_name" = Some ad_name →
       record !! "campaign_name" = Some campaign_name →
       record !! "approval_status" = Some approval_status →
       policy_finding py_repr record
       = (policy_limited_ad_issue py_repr record ad_name campaign_name approval_status,
          fix_policy_issue_action py_repr ad_name)
       ∧ Issue.metadata (policy_finding py_repr record).1 = record
       ∧ RecommendedAction.description (policy_finding py_repr record).2
         = "Review and modify ad '" +:+ py_str py_repr ad_name
             +:+ "' to comply with Google Ads policies").
Proof.
  split.
  { intros l. rewrite analyze_disapproved_products_unzip.
    apply unzip_parallel, bind_Forall, product_findings_paired. }
  split.
  { intros l ak. rewrite analyze_campaigns_unzip.
    apply unzip_parallel, bind_Forall, campaign_findings_paired. }
  split.
  { intros l. rewrite analyze_search_terms_unzip.
    apply unzip_parallel, bind_Forall, search_term_findings_paired. }
  split.
  { intros l. rewrite analyze_policy_issues_cases.
    destruct (first_missing_key _) eqn:Hmiss.
    - apply not_true_is_false. rewrite first_missing_key_forallb. congruence.
    - apply unzip_parallel, policy_finding_paired. }
  split.
  { intros acc p. exists (product_findings p).
    split; [apply disapproved_product_body_appends|apply product_findings_paired]. }
  split.
  { intros avg acc c. exists (campaign_findings avg c).
    split; [apply campaign_body_appends|apply campaign_findings_paired]. }
  split.
  { intros acc t. exists (search_term_findings t).
    split; [apply search_term_body_appends|apply search_term_findings_paired]. }
  split.
  { intros acc r. rewrite policy_body_cases.
    destruct (missing_key r) eqn:Hmiss.
    - apply not_true_is_false. rewrite missing_key_has_required_keys. congruence.
    - exists [policy_finding py_repr r]. split; [done|]. by repeat constructor. }
  split; [apply analyze_disapproved_products_unzip|].
  split; [apply analyze_campaigns_unzip|].
  split; [apply analyze_search_terms_unzip|].
  split; [apply analyze_policy_issues_cases|].
  split; [intros fs i; unfold unzip; simpl; by rewrite !list_lookup_fmap|].
  split; [done|].
  split.
  { intros avg c. unfold campaign_findings.
    destruct (zero_conversion_rule c); [by right; left|].
    destruct (high_cpa_rule _ _) as [[x a]|]; [right; right; by exists x, a|by left]. }
  split.
  { intros t. unfold search_term_findings.
    destruct (wasteful_rule t); [by right; left|].
    destruct (low_conversion_rule t) as [rate|]; [right; right; by exists rate|by left]. }
  intros r ad_name campaign_name approval_status Had Hcampaign Hstatus.
  unfold policy_finding. simpl. by rewrite Had, Hcampaign, Hstatus.
Qed.

(** C8: with no developer token ([None] or the empty string),
    [build_snapshot] returns the fallback report and leaves the world as it
    found it: no provider is called and nothing is printed.  The report has
    total spend 1250.50, currency USD, and a first issue of type
    disapproved_product. *)
Theorem build_snapshot_demo_mode
    py_repr stdout_write settings providers (customer_id date_range : string) (w : World) :
  token_missing settings = true →
  build_snapshot py_repr stdout_write settings providers customer_id date_range w
  = (Ok (build_demo_snapshot customer_id date_range), w)
  ∧ provider_calls
      (build_snapshot py_repr stdout_write settings providers customer_id date_range w).2
    = provider_calls w
  ∧ PrimFloat.eqb
      (Summary.total_spend
         (SnapshotResponse.summary (build_demo_snapshot customer_id date_range)))
      1250.50%float = true
  ∧ Summary.currency (SnapshotResponse.summary (build_demo_snapshot customer_id date_range))
    = "USD"
  ∧ Issue.type <$> head (SnapshotResponse.top_issues
                           (build_demo_snapshot customer_id date_range))
    = Some "disapproved_product".
Proof.
  intros Htoken. unfold build_snapshot. rewrite Htoken. done.
Qed.

(** C9: the response of [build_snapshot] is a function of its arguments and
    of what the providers return.  It does not depend on the world it starts
    from (what was printed or called before, the clock, the random
    generator), so a second run, started where the first one ended, returns
    the same response; and the fallback report is the same in every world. *)
Theorem snapshot_deterministic
    py_repr stdout_write settings providers (customer_id date_range : string) (w1 w2 : World) :
  (build_snapshot py_repr stdout_write settings providers customer_id date_range w1).1
  = (build_snapshot py_repr stdout_write settings providers customer_id date_range w2).1
  ∧ (build_snapshot py_repr stdout_write settings providers customer_id date_range
       (build_snapshot py_repr stdout_write settings providers customer_id date_range w1).2).1
    = (build_snapshot py_repr stdout_write settings providers customer_id date_range w1).1
  ∧ (build_snapshot py_repr stdout_write (mkSettings None) providers customer_id date_range w1).1
    = Ok (build_demo_snapshot customer_id date_range)
  ∧ (build_snapshot py_repr stdout_write (mkSettings None) providers customer_id date_range w2).1
    = Ok (build_demo_snapshot customer_id date_range).
Proof. by rewrite !build_snapshot_value. Qed.

(** C10: the fallback report ignores the customer id.  Of its arguments only
    the date range shows, as [summary.date_range]; every other field is the
    same for all customers and date ranges. *)
Theorem demo_snapshot_ignores_customer (c1 c2 d1 d2 : string) :
  build_demo_snapshot c1 d1 = build_demo_snapshot c2 d1
  ∧ Summary.date_range (SnapshotResponse.summary (build_demo_snapshot c1 d1)) = d1
  ∧ Summary.total_spend (SnapshotResponse.summary (build_demo_snapshot c1 d1))
    = Summary.total_spend (SnapshotResponse.summary (build_demo_snapshot c2 d2))
  ∧ Summary.total_conversions (SnapshotResponse.summary (build_demo_snapshot c1 d1))
    = Summary.total_conversions (SnapshotResponse.summary (build_demo_snapshot c2 d2))
  ∧ Summary.average_cpa (SnapshotResponse.summary (build_demo_snapshot c1 d1))
    = Summary.average_cpa (SnapshotResponse.summary (build_demo_snapshot c2 d2))
  ∧ Summary.roas (SnapshotResponse.summary (build_demo_snapshot c1 d1))
    = Summary.roas (SnapshotResponse.summary (build_demo_snapshot c2 d2))
  ∧ Summary.currency (SnapshotResponse.summary (build_demo_snapshot c1 d1))
    = Summary.currency (SnapshotResponse.summary (build_demo_snapshot c2 d2))
  ∧ SnapshotResponse.top_issues (build_demo_snapshot c1 d1)
    = SnapshotResponse.top_issues (build_demo_snapshot c2 d2)
  ∧ SnapshotResponse.recommended_actions (build_demo_snapshot c1 d1)
    = SnapshotResponse.recommended_actions (build_demo_snapshot c2 d2).
Proof. done. Qed.

(** * Further properties of the detectors and the orchestrator *)

(** ** Campaigns *)

(** X1: a campaign that rule 1 does not match, whose CPA and the account
    average are both defined and nonzero, with CPA above twice the average,
    contributes exactly one issue, of type high_cpa_campaign and severity
    medium, with one optimize_campaign action of priority medium; its
    metadata records the two CPA values as floats. *)
Theorem high_cpa_campaign_emitted
    (before after : list CampaignKPI.t) (campaign : CampaignKPI.t)
    (account_kpis : AccountKpis.t) (c a : float) :
  zero_conversion_rule campaign = false →
  CampaignKPI.cpa campaign = Some c →
  AccountKpis.average_cpa account_kpis = Some a →
  PrimFloat.eqb c 0 = false →
  PrimFloat.eqb a 0 = false →
  PrimFloat.ltb (a * 2)%float c = true →
  analyze_campaigns (before ++ campaign :: after) account_kpis
  = ((analyze_campaigns before account_kpis).1
       ++ [high_cpa_campaign_issue campaign c a]
       ++ (analyze_campaigns after account_kpis).1,
     (analyze_campaigns before account_kpis).2
       ++ [high_cpa_campaign_action campaign]
       ++ (analyze_campaigns after account_kpis).2)
  ∧ kind_of (high_cpa_campaign_issue campaign c a, high_cpa_campaign_action campaign)
    = ("high_cpa_campaign", "medium", "optimize_campaign", "medium")
  ∧ Issue.metadata (high_cpa_campaign_issue campaign c a) !! "cpa" = Some (VFloat c)
  ∧ Issue.metadata (high_cpa_campaign_issue campaign c a) !! "account_avg_cpa"
    = Some (VFloat a).
Proof.
  intros Hrule1 Hcpa Havg Hc Ha Hgt. split; [|done].
  rewrite !analyze_campaigns_unzip. unfold unzip. simpl.
  rewrite bind_app, bind_cons, !fmap_app.
  assert (campaign_findings (AccountKpis.average_cpa account_kpis) campaign
          = [(high_cpa_campaign_issue campaign c a, high_cpa_campaign_action campaign)])
    as ->; [|done].
  unfold campaign_findings, high_cpa_rule, float_truthy.
  by rewrite Hrule1, Hcpa, Havg, Hc, Ha, Hgt.
Qed.

(** X2: the campaign detector has no cut-off and treats each campaign on its
    own: the findings for a list are the findings for its front followed by
    the findings for its back. *)
Theorem analyze_campaigns_app (l1 l2 : list CampaignKPI.t) (account_kpis : AccountKpis.t) :
  analyze_campaigns (l1 ++ l2) account_kpis
  = ((analyze_campaigns l1 account_kpis).1 ++ (analyze_campaigns l2 account_kpis).1,
     (analyze_campaigns l1 account_kpis).2 ++ (analyze_campaigns l2 account_kpis).2).
Proof.
  rewrite !analyze_campaigns_unzip. unfold unzip. simpl.
  by rewrite bind_app, !fmap_app.
Qed.

Lemma unzip_issue_source {A : Type} (emit : A → list finding) (l : list A) issue :
  issue ∈ (l ≫= emit).*1 → ∃ x action, x ∈ l ∧ (issue, action) ∈ emit x.
Proof.
  intros ([issue' action] & -> & Hin)%list_elem_of_fmap.
  apply list_elem_of_bind in Hin as (x & Hemit & Hx). eauto.
Qed.

(** X3: the campaign detector reports nothing without cause.  Every issue it
    returns is the zero-conversion issue of a campaign with
    [conversions == 0] and [spend > 50], or the high-CPA issue of a campaign
    that rule 1 does not match and whose CPA is nonzero and above twice a
    nonzero account average. *)
Theorem analyze_campaigns_sound
    (l : list CampaignKPI.t) (account_kpis : AccountKpis.t) (issue : Issue.t) :
  issue ∈ (analyze_campaigns l account_kpis).1 →
  ∃ campaign,
    campaign ∈ l
    ∧ ((PrimFloat.eqb (CampaignKPI.conversions campaign) 0 = true
        ∧ PrimFloat.ltb 50 (CampaignKPI.spend campaign) = true
        ∧ issue = zero_conversion_campaign_issue campaign)
       ∨ (zero_conversion_rule campaign = false
          ∧ ∃ c a,
              CampaignKPI.cpa campaign = Some c
              ∧ AccountKpis.average_cpa account_kpis = Some a
              ∧ PrimFloat.eqb c 0 = false
              ∧ PrimFloat.eqb a 0 = false
              ∧ PrimFloat.ltb (a * 2)%float c = true
              ∧ issue = high_cpa_campaign_issue campaign c a)).
Proof.
  rewrite analyze_campaigns_unzip. unfold unzip. simpl.
  intros (campaign & action & Hin & Hemit)%unzip_issue_source.
  exists campaign. split; [done|].
  unfold campaign_findings in Hemit.
  destruct (zero_conversion_rule campaign) eqn:Hrule1.
  - left. apply list_elem_of_singleton in Hemit. simplify_eq.
    unfold zero_conversion_rule in Hrule1. by apply andb_true_iff in Hrule1 as [-> ->].
  - right. split; [done|].
    unfold high_cpa_rule in Hemit.
    destruct (CampaignKPI.cpa campaign) as [c|]; [|by apply elem_of_nil in Hemit].
    destruct (AccountKpis.average_cpa account_kpis) as [a|];
      [|by apply elem_of_nil in Hemit].
    destruct (float_truthy c && float_truthy a && PrimFloat.ltb (a * 2)%float c) eqn:Hrule2;
      [|by apply elem_of_nil in Hemit].
    apply list_elem_of_singleton in Hemit. simplify_eq.
    apply andb_true_iff in Hrule2 as [[Hc Ha]%andb_true_iff Hgt].
    unfold float_truthy in Hc, Ha. apply negb_true_iff in Hc, Ha.
    by exists c, a.
Qed.

(** X4: when the account average CPA is missing or zero, rule 2 never
    fires: the issues are the zero-conversion issues of the campaigns with
    [conversions == 0] and [spend > 50], in input order, and nothing else. *)
Theorem no_high_cpa_without_average (l : list CampaignKPI.t) (account_kpis : AccountKpis.t) :
  (AccountKpis.average_cpa account_kpis = None
   ∨ ∃ a, AccountKpis.average_cpa account_kpis = Some a ∧ PrimFloat.eqb a 0 = true) →
  analyze_campaigns l account_kpis
  = (zero_conversion_campaign_issue <$> filter (λ c, zero_conversion_rule c = true) l,
     zero_conversion_campaign_action <$> filter (λ c, zero_conversion_rule c = true) l).
Proof.
  intros Havg. rewrite analyze_campaigns_unzip. unfold unzip.
  assert (∀ campaign,
            campaign_findings (AccountKpis.average_cpa account_kpis) campaign
            = if zero_conversion_rule campaign
              then [(zero_conversion_campaign_issue campaign,
                     zero_conversion_campaign_action campaign)]
              else []) as Hemit.
  { intros campaign. unfold campaign_findings, high_cpa_rule, float_truthy.
    destruct (zero_conversion_rule campaign); [done|].
    destruct (CampaignKPI.cpa campaign) as [c|]; [|done].
    destruct Havg as [->|(a & -> & ->)]; [done|].
    by rewrite andb_false_r. }
  f_equal; induction l as [|campaign l IH]; [done| |done|];
    rewrite bind_cons, fmap_app, IH, Hemit, filter_cons;
    by destruct (zero_conversion_rule campaign).
Qed.

(** ** Search terms *)

(** X5: rule 1 comes first.  A processed search term with
    [conversions == 0] and [cost > 20] gets a wasteful_search_term issue of
    severity medium and, at the same position, an add_negative_keyword action
    of priority medium; on its own it gets exactly that finding, whatever its
    conversion rate and however high its cost. *)
Theorem wasteful_search_term_emitted
    (search_terms : list SearchTermData.t) (term : SearchTermData.t) :
  term ∈ take 15 search_terms →
  PrimFloat.eqb (SearchTermData.conversions term) 0 = true →
  PrimFloat.ltb 20 (SearchTermData.cost term) = true →
  (∃ i,
     (analyze_search_terms search_terms).1 !! i = Some (wasteful_search_term_issue term)
     ∧ (analyze_search_terms search_terms).2 !! i = Some (add_negative_keyword_action term))
  ∧ analyze_search_terms [term]
    = ([wasteful_search_term_issue term], [add_negative_keyword_action term])
  ∧ kind_of (wasteful_search_term_issue term, add_negative_keyword_action term)
    = ("wasteful_search_term", "medium", "add_negative_keyword", "medium").
Proof.
  intros Hin Hconv Hcost.
  assert (search_term_findings term
          = [(wasteful_search_term_issue term, add_negative_keyword_action term)])
    as Hemit.
  { unfold search_term_findings, wasteful_rule. by rewrite Hconv, Hcost. }
  split; [|split; [|done]].
  - destruct (bind_singleton_lookup _ _ _ _ Hin Hemit) as [i Hi].
    exists i. rewrite analyze_search_terms_unzip. unfold unzip. simpl.
    by rewrite !list_lookup_fmap, Hi.
  - rewrite analyze_search_terms_unzip. unfold unzip. simpl.
    by rewrite app_nil_r, Hemit.
Qed.

(** X6: the search-term detector reports nothing without cause.  Every issue
    it returns belongs to one of the first fifteen terms, and is the wasteful
    issue of a term with [conversions == 0] and [cost > 20], or the
    low-conversion issue of a term that rule 1 does not match, with a nonzero
    rate below 1.0 and a cost above 50. *)
Theorem analyze_search_terms_sound (search_terms : list SearchTermData.t) (issue : Issue.t) :
  issue ∈ (analyze_search_terms search_terms).1 →
  ∃ term,
    term ∈ take 15 search_terms
    ∧ ((PrimFloat.eqb (SearchTermData.conversions term) 0 = true
        ∧ PrimFloat.ltb 20 (SearchTermData.cost term) = true
        ∧ issue = wasteful_search_term_issue term)
       ∨ (wasteful_rule term = false
          ∧ ∃ rate,
              SearchTermData.conversion_rate term = Some rate
              ∧ PrimFloat.eqb rate 0 = false
              ∧ PrimFloat.ltb rate 1 = true
              ∧ PrimFloat.ltb 50 (SearchTermData.cost term) = true
              ∧ issue = low_conversion_search_term_issue term rate)).
Proof.
  rewrite analyze_search_terms_unzip. unfold unzip. simpl.
  intros (term & action & Hin & Hemit)%unzip_issue_source.
  exists term. split; [done|].
  unfold search_term_findings in Hemit.
  destruct (wasteful_rule term) eqn:Hrule1.
  - left. apply list_elem_of_singleton in Hemit. simplify_eq.
    unfold wasteful_rule in Hrule1. by apply andb_true_iff in Hrule1 as [-> ->].
  - right. split; [done|].
    unfold low_conversion_rule in Hemit.
    destruct (SearchTermData.conversion_rate term) as [rate|];
      [|by apply elem_of_nil in Hemit].
    destruct (float_truthy rate && PrimFloat.ltb rate 1
              && PrimFloat.ltb 50 (SearchTermData.cost term)) eqn:Hrule2;
      [|by apply elem_of_nil in Hemit].
    apply list_elem_of_singleton in Hemit. simplify_eq.
    apply andb_true_iff in Hrule2 as [[Hrate Hlow]%andb_true_iff Hcost].
    unfold float_truthy in Hrate. apply negb_true_iff in Hrate.
    by exists rate.
Qed.

(** X7: search terms after the fifteenth are never looked at: appending
    anything to a list of fifteen or more terms leaves the findings as they
    are. *)
Theorem analyze_search_terms_cutoff (search_terms rest : list SearchTermData.t) :
  15 ≤ length search_terms →
  analyze_search_terms (search_terms ++ rest) = analyze_search_terms search_terms.
Proof.
  intros Hlen. unfold analyze_search_terms. by rewrite take_app_le.
Qed.

(** ** Policy records *)

(** X8: the policy detector raises at the first record, among the first ten,
    that lacks a key, and the [KeyError] names the first key that record
    lacks, in the order ad_name, campaign_name, approval_status.  The
    findings of the records before it are lost. *)
Theorem policy_first_missing_key py_repr
    (good rest : list (gmap string PyVal)) (bad : gmap string PyVal) (key : string) :
  length good < 10 →
  forallb has_required_keys good = true →
  missing_key bad = Some key →
  analyze_policy_issues py_repr (good ++ bad :: rest) = Raise (KeyError key).
Proof.
  intros Hlen Hgood Hbad. rewrite analyze_policy_issues_cases.
  assert (first_missing_key (take 10 (good ++ bad :: rest)) = Some key) as ->; [|done].
  rewrite take_app_ge by lia.
  destruct (10 - length good) as [|n] eqn:Hn; [lia|]. simpl.
  clear Hlen Hn. induction good as [|r good IH]; simpl in *.
  - by rewrite Hbad.
  - apply andb_true_iff in Hgood as [Hr Hgood].
    apply missing_key_has_required_keys in Hr. rewrite Hr. by apply IH.
Qed.

(** X9: policy records after the tenth are never looked at, well formed or
    not: appending anything to a list of ten or more records leaves the
    result, findings or [KeyError], as it is. *)
Theorem analyze_policy_issues_cutoff py_repr (policy_issues rest : list (gmap string PyVal)) :
  10 ≤ length policy_issues →
  analyze_policy_issues py_repr (policy_issues ++ rest)
  = analyze_policy_issues py_repr policy_issues.
Proof.
  intros Hlen. unfold analyze_policy_issues. by rewrite take_app_le.
Qed.

(** ** Effects of a run *)

(** X10: a run that succeeds calls the five providers once each, in the
    order account KPIs, campaign KPIs, search terms (with a minimum spend of
    10.0), policy issues, disapproved products, all with the arguments of
    the run; it prints nothing; and the summary of its response is the date
    range of the run with the five account KPIs as the provider returned
    them. *)
Theorem live_run_effects
    py_repr stdout_write settings providers (customer_id date_range : string) (w : World)
    account_kpis campaign_kpis search_terms policy_issues disapproved_products
    (from_policy : findings) :
  token_missing settings = false →
  ads_get_account_kpis providers customer_id date_range = Ok account_kpis →
  ads_get_campaign_kpis providers customer_id date_range = Ok campaign_kpis →
  ads_get_search_terms providers customer_id date_range 10.0%float = Ok search_terms →
  ads_get_policy_issues providers customer_id = Ok policy_issues →
  mc_get_disapproved_products providers = Ok disapproved_products →
  analyze_policy_issues py_repr policy_issues = Ok from_policy →
  ∃ response,
    build_snapshot py_repr stdout_write settings providers customer_id date_range w
    = (Ok response,
       mkWorld (stdout w) (provider_calls w ++ live_calls customer_id date_range)
         (clock w) (random_state w))
    ∧ SnapshotResponse.summary response
      = Summary.mk date_range
          (AccountKpis.total_spend account_kpis)
          (AccountKpis.total_conversions account_kpis)
          (AccountKpis.average_cpa account_kpis)
          (AccountKpis.roas account_kpis)
          (AccountKpis.currency account_kpis).
Proof.
  intros Htoken Hak Hck Hst Hpol Hdp Hfp.
  unfold build_snapshot. rewrite Htoken.
  unfold try_except, call, lift, mbind, M_bind.
  rewrite Hak, Hck, Hst, Hpol, Hdp. simpl.
  destruct (analyze_disapproved_products _) as [ip rp].
  destruct (analyze_campaigns _ _) as [ic rc].
  destruct (analyze_search_terms _) as [ist rst].
  rewrite Hfp. destruct from_policy as [ipol rpol]. simpl.
  unfold mret, M_ret, live_calls. rewrite <- !app_assoc. simpl.
  eexists. split; reflexivity.
Qed.

(** X11: a run whose protected block raises has called the providers in
    order up to the one that raised, and no later one (all five when the
    policy detector raised).  If the exception derives from [Exception] the
    handler prints exactly one line, the fallback message with the text of
    that exception, and the run returns the fallback report; if printing
    raises, or the exception does not derive from [Exception], nothing is
    printed and the exception goes to the caller. *)
Theorem failing_run_effects
    py_repr stdout_write settings providers (customer_id date_range : string) (w : World)
    (n : nat) (e : PyExn) :
  token_missing settings = false →
  failure_point py_repr providers customer_id date_range = Some (n, e) →
  build_snapshot py_repr stdout_write settings providers customer_id date_range w
  = if is_exception e then
      match stdout_write (fallback_message py_repr e) with
      | Ok _ =>
          (Ok (build_demo_snapshot customer_id date_range),
           mkWorld (stdout w ++ [fallback_message py_repr e])
             (provider_calls w ++ take n (live_calls customer_id date_range))
             (clock w) (random_state w))
      | Raise e' =>
          (Raise e',
           mkWorld (stdout w)
             (provider_calls w ++ take n (live_calls customer_id date_range))
             (clock w) (random_state w))
      end
    else
      (Raise e,
       mkWorld (stdout w)
         (provider_calls w ++ take n (live_calls customer_id date_range))
         (clock w) (random_state w)).
Proof.
  intros Htoken.
  unfold build_snapshot, failure_point. rewrite Htoken.
  unfold try_except, call, lift, print, fallback_message, live_calls,
    mbind, M_bind, result_bind, mret, M_ret.
  destruct (ads_get_account_kpis _ _ _) as [account_kpis|e1].
  2: { intros [= <- <-]. simpl.
       destruct (is_exception e1); [|done]. by destruct (stdout_write _). }
  destruct (ads_get_campaign_kpis _ _ _) as [campaign_kpis|e2].
  2: { intros [= <- <-]. simpl. rewrite <- !app_assoc.
       destruct (is_exception e2); [|done]. by destruct (stdout_write _). }
  destruct (ads_get_search_terms _ _ _ _) as [search_terms|e3].
  2: { intros [= <- <-]. simpl. rewrite <- !app_assoc.
       destruct (is_exception e3); [|done]. by destruct (stdout_write _). }
  destruct (ads_get_policy_issues _ _) as [policy_issues|e4].
  2: { intros [= <- <-]. simpl. rewrite <- !app_assoc.
       destruct (is_exception e4); [|done]. by destruct (stdout_write _). }
  destruct (mc_get_disapproved_products _) as [disapproved_products|e5].
  2: { intros [= <- <-]. simpl. rewrite <- !app_assoc.
       destruct (is_exception e5); [|done]. by destruct (stdout_write _). }
  destruct (analyze_disapproved_products _) as [ip rp].
  destruct (analyze_campaigns _ _) as [ic rc].
  destruct (analyze_search_terms _) as [ist rst].
  destruct (analyze_policy_issues _ _) as [[ipol rpol]|e6]; [done|].
  intros [= <- <-]. simpl. rewrite <- !app_assoc.
  destruct (is_exception e6); [|done]. by destruct (stdout_write _).
Qed.

(** ** Kinds and sizes of the findings *)

Ltac solve_kind :=
  repeat constructor; unfold kind_of, finding_kinds; simpl;
  repeat first [apply list_elem_of_here | apply list_elem_of_further].

Lemma product_findings_well_formed product :
  Forall (λ f, well_formed f
               ∧ kind_of f = ("disapproved_product", "high", "fix_product_feed", "high"))
    (product_findings product).
Proof. solve_kind. Qed.

Lemma campaign_findings_well_formed avg campaign :
  Forall (λ f, well_formed f
               ∧ kind_of f ∈ [("zero_conversion_campaign", "high", "optimize_campaign", "high");
                              ("high_cpa_campaign", "medium", "optimize_campaign", "medium")])
    (campaign_findings avg campaign).
Proof.
  unfold campaign_findings.
  destruct (zero_conversion_rule campaign); [solve_kind|].
  destruct (high_cpa_rule _ _) as [[c a]|]; solve_kind.
Qed.

Lemma search_term_findings_well_formed term :
  Forall (λ f, well_formed f
               ∧ kind_of f ∈ [("wasteful_search_term", "medium", "add_negative_keyword", "medium");
                              ("low_conversion_search_term", "low", "review_search_term", "low")])
    (search_term_findings term).
Proof.
  unfold search_term_findings.
  destruct (wasteful_rule term); [solve_kind|].
  destruct (low_conversion_rule term); solve_kind.
Qed.

Lemma policy_finding_well_formed py_repr record :
  well_formed (policy_finding py_repr record)
  ∧ kind_of (policy_finding py_repr record)
    = ("policy_limited_ad", "medium", "fix_policy_issue", "medium").
Proof. solve_kind. Qed.

Lemma Forall2_unzip (R : Issue.t → RecommendedAction.t → Prop) (fs : list finding) :
  Forall (λ f, R f.1 f.2) fs → Forall2 R fs.*1 fs.*2.
Proof. induction 1; simpl; by constructor. Qed.

Lemma bind_length_le {A B : Type} (emit : A → list B) (l : list A) :
  (∀ x, length (emit x) ≤ 1) → length (l ≫= emit) ≤ length l.
Proof.
  intros Hemit. induction l as [|x l IH]; [done|].
  rewrite bind_cons, length_app. specialize (Hemit x). simpl. lia.
Qed.

(** X14: each detector raises only its own kinds of finding.  The product
    detector returns disapproved_product issues (high) with fix_product_feed
    actions; the campaign detector zero_conversion_campaign (high) or
    high_cpa_campaign (medium) issues, both with optimize_campaign actions;
    the search-term detector wasteful_search_term (medium) issues with
    add_negative_keyword actions or low_conversion_search_term (low) issues
    with review_search_term actions; the policy detector, when it returns,
    policy_limited_ad issues (medium) with fix_policy_issue actions.  The
    priority of an action is always the severity of its issue. *)
Theorem detector_finding_kinds py_repr :
  (∀ l,
     Forall2 (λ issue action,
                kind_of (issue, action)
                = ("disapproved_product", "high", "fix_product_feed", "high"))
       (analyze_disapproved_products l).1 (analyze_disapproved_products l).2)
  ∧ (∀ l account_kpis,
       Forall2 (λ issue action,
                  kind_of (issue, action)
                  ∈ [("zero_conversion_campaign", "high", "optimize_campaign", "high");
                     ("high_cpa_campaign", "medium", "optimize_campaign", "medium")])
         (analyze_campaigns l account_kpis).1 (analyze_campaigns l account_kpis).2)
  ∧ (∀ l,
       Forall2 (λ issue action,
                  kind_of (issue, action)
                  ∈ [("wasteful_search_term", "medium", "add_negative_keyword", "medium");
                     ("low_conversion_search_term", "low", "review_search_term", "low")])
         (analyze_search_terms l).1 (analyze_search_terms l).2)
  ∧ (∀ l,
       match analyze_policy_issues py_repr l with
       | Ok out =>
           Forall2 (λ issue action,
                      kind_of (issue, action)
                      = ("policy_limited_ad", "medium", "fix_policy_issue", "medium"))
             out.1 out.2
       | Raise _ => forallb has_required_keys (take 10 l) = false
       end).
Proof.
  split.
  { intros l. rewrite analyze_disapproved_products_unzip.
    apply (Forall2_unzip (λ issue action, kind_of (issue, action) = _)), bind_Forall.
    intros p. eapply Forall_impl; [apply product_findings_well_formed|].
    by intros [issue action] [_ ?]. }
  split.
  { intros l ak. rewrite analyze_campaigns_unzip.
    apply (Forall2_unzip (λ issue action, kind_of (issue, action) ∈ _)), bind_Forall.
    intros c. eapply Forall_impl; [apply campaign_findings_well_formed|].
    by intros [issue action] [_ ?]. }
  split.
  { intros l. rewrite analyze_search_terms_unzip.
    apply (Forall2_unzip (λ issue action, kind_of (issue, action) ∈ _)), bind_Forall.
    intros t. eapply Forall_impl; [apply search_term_findings_well_formed|].
    by intros [issue action] [_ ?]. }
  intros l. rewrite analyze_policy_issues_cases.
  destruct (first_missing_key _) eqn:Hmiss.
  - apply not_true_is_false. rewrite first_missing_key_forallb. congruence.
  - apply (Forall2_unzip (λ issue action, kind_of (issue, action) = _)).
    apply Forall_fmap, Forall_forall. intros r _. apply policy_finding_well_formed.
Qed.

(** X15: how many findings a detector can return.  The campaign detector
    returns at most one issue per campaign; the search-term detector at most
    one per term and never more than fifteen; the policy detector, when it
    returns, exactly one per record up to ten. *)
Theorem detector_output_sizes py_repr :
  (∀ l account_kpis, length (analyze_campaigns l account_kpis).1 ≤ length l)
  ∧ (∀ l, length (analyze_search_terms l).1 ≤ length l `min` 15)
  ∧ (∀ l,
       match analyze_policy_issues py_repr l with
       | Ok out => length out.1 = length l `min` 10
       | Raise _ => forallb has_required_keys (take 10 l) = false
       end).
Proof.
  split.
  { intros l ak. rewrite analyze_campaigns_unzip. unfold unzip. simpl.
    rewrite length_fmap. apply bind_length_le. intros c. unfold campaign_findings.
    destruct (zero_conversion_rule c); [done|].
    destruct (high_cpa_rule _ _) as [[? ?]|]; simpl; lia. }
  split.
  { intros l. rewrite analyze_search_terms_unzip. unfold unzip. simpl.
    rewrite length_fmap, <- (Nat.min_comm 15), <- length_take.
    apply bind_length_le. intros t. unfold search_term_findings.
    destruct (wasteful_rule t); [done|].
    destruct (low_conversion_rule t); simpl; lia. }
  intros l. rewrite analyze_policy_issues_cases.
  destruct (first_missing_key _) eqn:Hmiss.
  - apply not_true_is_false. rewrite first_missing_key_forallb. congruence.
  - unfold unzip. simpl. by rewrite !length_fmap, length_take, Nat.min_comm.
Qed.

(** ** The response after the two sorts *)

Section SortMore.
Context {A B : Type}.

Lemma insert_by_key_fmap (g : B → A) (key : A → nat) (x : B) (s : list B) :
  g <$> insert_by_key (key ∘ g) x s = insert_by_key key (g x) (g <$> s).
Proof.
  induction s as [|y s IHs]; csimpl; [done|].
  destruct (key (g y) <? key (g x)); csimpl; [|done]. by rewrite IHs.
Qed.

(** Sorting commutes with a projection the key factors through. *)
Lemma sort_by_key_fmap (g : B → A) (key : A → nat) (l : list B) :
  g <$> sort_by_key (key ∘ g) l = sort_by_key key (g <$> l).
Proof.
  induction l as [|x l IH]; csimpl; [done|].
  by rewrite insert_by_key_fmap, IH.
Qed.

(** Two keys that agree on the elements of a list sort it alike. *)
Lemma sort_by_key_ext (key1 key2 : A → nat) (l : list A) :
  Forall (λ x, key1 x = key2 x) l → sort_by_key key1 l = sort_by_key key2 l.
Proof.
  induction 1 as [|x l Hx Hl IH]; simpl; [done|]. rewrite IH.
  assert (Forall (λ y, key1 y = key2 y) (sort_by_key key2 l)) as Hs.
  { by rewrite sort_by_key_perm. }
  revert Hs. generalize (sort_by_key key2 l). intros s Hs.
  induction Hs as [|y s Hy Hs IHs]; simpl; [done|].
  rewrite Hx, Hy. destruct (key2 y <? key2 x); [|done]. by rewrite IHs.
Qed.

Lemma filter_nil_Forall (P : A → Prop) `{!∀ x, Decision (P x)} (l : list A) :
  Forall (λ x, ¬ P x) l → filter P l = [].
Proof. induction 1; [done|]. by rewrite filter_cons_False. Qed.

(** A list in rank order whose tokens are the three known ones is its high
    part, then its medium part, then its low part. *)
Lemma sorted_buckets (token : A → string) (l : list A) :
  StronglySorted (λ a b, rank (token a) ≤ rank (token b)) l →
  Forall (λ a, token a ∈ ["high"; "medium"; "low"]) l →
  l = filter (λ a, token a = "high") l
      ++ filter (λ a, token a = "medium") l
      ++ filter (λ a, token a = "low") l.
Proof.
  induction 1 as [|x l Hl IH Hx]; [done|].
  intros [Htok Htoks]%Forall_cons. specialize (IH Htoks).
  rewrite !elem_of_cons, elem_of_nil in Htok.
  destruct Htok as [Hhigh|[Hmedium|[Hlow|[]]]].
  - rewrite filter_cons_True, !(filter_cons_False _ x) by (rewrite ?Hhigh; done).
    simpl. by f_equal.
  - assert (filter (λ a, token a = "high") l = []) as Hnone.
    { apply filter_nil_Forall. eapply Forall_impl; [exact Hx|].
      simpl. intros y Hle Hy. rewrite Hmedium, Hy in Hle. vm_compute in Hle. lia. }
    rewrite Hnone in IH.
    rewrite (filter_cons_False _ x), Hnone, filter_cons_True,
      (filter_cons_False _ x) by (rewrite ?Hmedium; done).
    simpl. by f_equal.
  - assert (filter (λ a, token a = "high") l = []) as Hnone.
    { apply filter_nil_Forall. eapply Forall_impl; [exact Hx|].
      simpl. intros y Hle Hy. rewrite Hlow, Hy in Hle. vm_compute in Hle. lia. }
    assert (filter (λ a, token a = "medium") l = []) as Hnone'.
    { apply filter_nil_Forall. eapply Forall_impl; [exact Hx|].
      simpl. intros y Hle Hy. rewrite Hlow, Hy in Hle. vm_compute in Hle. lia. }
    rewrite Hnone, Hnone' in IH.
    rewrite !(filter_cons_False _ x), Hnone, Hnone', filter_cons_True
      by (rewrite ?Hlow; done).
    simpl. by f_equal.
Qed.

End SortMore.

Lemma well_formed_tokens (f : finding) :
  well_formed f →
  Issue.severity f.1 ∈ ["high"; "medium"; "low"]
  ∧ RecommendedAction.priority f.2 = Issue.severity f.1.
Proof.
  destruct f as [issue action]. intros [_ Hkind].
  unfold kind_of, finding_kinds in Hkind. simpl in *.
  rewrite !elem_of_cons, elem_of_nil in Hkind.
  destruct Hkind as [H|[H|[H|[H|[H|[H|[]]]]]]];
    injection H as _ -> _ ->; split; solve_kind.
Qed.

(** The fallback report, as a list of findings. *)
Lemma demo_sorted_findings (customer_id date_range : string) :
  ∃ fs,
    Forall well_formed fs
    ∧ SnapshotResponse.top_issues (build_demo_snapshot customer_id date_range)
      = sort_by_key severity_key fs.*1
    ∧ SnapshotResponse.recommended_actions (build_demo_snapshot customer_id date_range)
      = sort_by_key priority_key fs.*2.
Proof.
  exists (zip (SnapshotResponse.top_issues (build_demo_snapshot customer_id date_range))
            (SnapshotResponse.recommended_actions
               (build_demo_snapshot customer_id date_range))).
  split; [solve_kind|]. split; by vm_compute.
Qed.

(** Every response is the two sorts of one list of well-formed findings. *)
Lemma response_sorted_findings
    py_repr stdout_write settings providers (customer_id date_range : string) (w : World)
    (response : SnapshotResponse.t) :
  (build_snapshot py_repr stdout_write settings providers customer_id date_range w).1
  = Ok response →
  ∃ fs,
    Forall well_formed fs
    ∧ SnapshotResponse.top_issues response = sort_by_key severity_key fs.*1
    ∧ SnapshotResponse.recommended_actions response = sort_by_key priority_key fs.*2.
Proof.
  rewrite build_snapshot_value.
  assert (∀ r, r = Ok (build_demo_snapshot customer_id date_range) → r = Ok response →
               ∃ fs, Forall well_formed fs
                     ∧ SnapshotResponse.top_issues response = sort_by_key severity_key fs.*1
                     ∧ SnapshotResponse.recommended_actions response
                       = sort_by_key priority_key fs.*2) as Hdemo.
  { intros r -> [= <-]. apply demo_sorted_findings. }
  destruct (token_missing settings); [by apply Hdemo|].
  assert (∀ e, after_failure py_repr stdout_write customer_id date_range e = Ok response →
               ∃ fs, Forall well_formed fs
                     ∧ SnapshotResponse.top_issues response = sort_by_key severity_key fs.*1
                     ∧ SnapshotResponse.recommended_actions response
                       = sort_by_key priority_key fs.*2) as Hfail.
  { intros e. unfold after_failure. destruct (is_exception e); [|done].
    destruct (stdout_write _); [by apply Hdemo|done]. }
  unfold live_result, mbind, result_bind.
  destruct (ads_get_account_kpis _ _ _) as [account_kpis|]; [|by apply Hfail].
  destruct (ads_get_campaign_kpis _ _ _) as [campaign_kpis|]; [|by apply Hfail].
  destruct (ads_get_search_terms _ _ _ _) as [search_terms|]; [|by apply Hfail].
  destruct (ads_get_policy_issues _ _) as [policy_issues|]; [|by apply Hfail].
  destruct (mc_get_disapproved_products _) as [disapproved_products|]; [|by apply Hfail].
  rewrite analyze_policy_issues_cases.
  destruct (first_missing_key _); [by apply Hfail|].
  rewrite analyze_disapproved_products_unzip, analyze_campaigns_unzip,
    analyze_search_terms_unzip.
  intros [= <-].
  exists ((take 10 disapproved_products ≫= product_findings)
          ++ (campaign_kpis ≫= campaign_findings (AccountKpis.average_cpa account_kpis))
          ++ (take 15 search_terms ≫= search_term_findings)
          ++ (policy_finding py_repr <$> take 10 policy_issues)).
  simpl. rewrite !fmap_app. split; [|done].
  repeat apply Forall_app_2.
  - apply bind_Forall. intros p.
    eapply Forall_impl; [apply product_findings_well_formed|]. by intros ? [? _].
  - apply bind_Forall. intros c.
    eapply Forall_impl; [apply campaign_findings_well_formed|]. by intros ? [? _].
  - apply bind_Forall. intros t.
    eapply Forall_impl; [apply search_term_findings_well_formed|]. by intros ? [? _].
  - apply Forall_fmap, Forall_forall. intros r _. apply policy_finding_well_formed.
Qed.

Lemma well_formed_keys (fs : list finding) :
  Forall well_formed fs →
  Forall (λ f, (priority_key ∘ snd) f = (severity_key ∘ fst) f) fs.
Proof.
  intros Hfs. eapply Forall_impl; [exact Hfs|].
  intros f [Htok Hprio]%well_formed_tokens. simpl.
  by rewrite severity_key_rank, priority_key_rank, Hprio.
Qed.

(** Both lists of a response come from one sorted list of findings. *)
Lemma sorted_findings_unzip (fs : list finding) :
  Forall well_formed fs →
  ∃ gs,
    gs ≡ₚ fs
    ∧ sort_by_key severity_key fs.*1 = gs.*1
    ∧ sort_by_key priority_key fs.*2 = gs.*2.
Proof.
  intros Hfs. exists (sort_by_key (severity_key ∘ fst) fs).
  split; [apply sort_by_key_perm|]. split.
  - by rewrite <- sort_by_key_fmap.
  - rewrite <- sort_by_key_fmap. f_equal.
    by apply sort_by_key_ext, well_formed_keys.
Qed.

(** X12: the two lists of a response are sorted separately, yet they stay
    aligned: in every response, live or fallback, the lists have the same
    length and the action at each position belongs to the issue at that
    position: it names the type of the issue, has its severity as
    priority, and the two are of one of the six kinds of finding. *)
Theorem response_findings_aligned
    py_repr stdout_write settings providers (customer_id date_range : string) (w : World)
    (response : SnapshotResponse.t) :
  (build_snapshot py_repr stdout_write settings providers customer_id date_range w).1
  = Ok response →
  Forall2 (λ issue action,
             RecommendedAction.related_issue_type action = Issue.type issue
             ∧ RecommendedAction.priority action = Issue.severity issue
             ∧ kind_of (issue, action) ∈ finding_kinds)
    (SnapshotResponse.top_issues response)
    (SnapshotResponse.recommended_actions response).
Proof.
  intros (fs & Hfs & Hissues & Hactions)%response_sorted_findings.
  rewrite Hissues, Hactions.
  destruct (sorted_findings_unzip fs Hfs) as (gs & Hperm & -> & ->).
  apply (Forall2_unzip (λ issue action, _ ∧ _ ∧ kind_of (issue, action) ∈ _)).
  rewrite Hperm. eapply Forall_impl; [exact Hfs|].
  intros [issue action] Hwf. destruct (well_formed_tokens _ Hwf) as [_ Hprio].
  destruct Hwf as [Hrel Hkind]. done.
Qed.

(** X13: every response, live or fallback, lists its high issues first,
    then its medium ones, then its low ones, and has no issue of any other
    severity; likewise its actions by priority. *)
Theorem response_rank_buckets
    py_repr stdout_write settings providers (customer_id date_range : string) (w : World)
    (response : SnapshotResponse.t) :
  (build_snapshot py_repr stdout_write settings providers customer_id date_range w).1
  = Ok response →
  SnapshotResponse.top_issues response
  = filter (λ x, Issue.severity x = "high") (SnapshotResponse.top_issues response)
    ++ filter (λ x, Issue.severity x = "medium") (SnapshotResponse.top_issues response)
    ++ filter (λ x, Issue.severity x = "low") (SnapshotResponse.top_issues response)
  ∧ SnapshotResponse.recommended_actions response
    = filter (λ x, RecommendedAction.priority x = "high")
        (SnapshotResponse.recommended_actions response)
      ++ filter (λ x, RecommendedAction.priority x = "medium")
           (SnapshotResponse.recommended_actions response)
      ++ filter (λ x, RecommendedAction.priority x = "low")
           (SnapshotResponse.recommended_actions response).
Proof.
  intros (fs & Hfs & Hissues & Hactions)%response_sorted_findings.
  assert (Forall (λ f, Issue.severity f.1 ∈ ["high"; "medium"; "low"]
                       ∧ RecommendedAction.priority f.2 ∈ ["high"; "medium"; "low"]) fs)
    as Htokens.
  { eapply Forall_impl; [exact Hfs|].
    intros f [Htok Hprio]%well_formed_tokens. by rewrite Hprio. }
  split.
  - apply sorted_buckets.
    + rewrite Hissues.
      apply (StronglySorted_weaken (λ a b, severity_key a ≤ severity_key b));
        [|apply sort_by_key_sorted].
      intros a b. by rewrite !severity_key_rank.
    + rewrite Hissues, sort_by_key_perm. apply Forall_fmap.
      eapply Forall_impl; [exact Htokens|]. by intros f [? _].
  - apply sorted_buckets.
    + rewrite Hactions.
      apply (StronglySorted_weaken (λ a b, priority_key a ≤ priority_key b));
        [|apply sort_by_key_sorted].
      intros a b. by rewrite !priority_key_rank.
    + rewrite Hactions, sort_by_key_perm. apply Forall_fmap.
      eapply Forall_impl; [exact Htokens|]. by intros f [_ ?].
Qed.

(** * Sample runs *)

Example format_2f_samples :
  format_2f 150 = "150.00" ∧ format_2f 45.2 = "45.20" ∧ format_2f 0.125 = "0.12"
  ∧ format_2f 2.675 = "2.67" ∧ format_2f (-0.001) = "-0.00" ∧ format_2f 27.79 = "27.79".
Proof. by vm_compute. Qed.

(** The spec's stability example: severities medium, high, high, low come out
    as high, high, medium, low, the two high issues in their input order. *)
Example sort_stability_sample :
  sort_by_key severity_key
    [Issue.mk "t" "medium" "first" ∅; Issue.mk "t" "high" "second" ∅;
     Issue.mk "t" "high" "third" ∅; Issue.mk "t" "low" "fourth" ∅;
     Issue.mk "t" "urgent" "fifth" ∅; Issue.mk "t" "high" "sixth" ∅]
  = [Issue.mk "t" "high" "second" ∅; Issue.mk "t" "high" "third" ∅;
     Issue.mk "t" "high" "sixth" ∅; Issue.mk "t" "medium" "first" ∅;
     Issue.mk "t" "low" "fourth" ∅; Issue.mk "t" "urgent" "fifth" ∅].
Proof. by vm_compute. Qed.

(** A campaign with conversions, CPA 100 against an account average of 40:
    one high_cpa_campaign issue of severity medium. *)
Example high_cpa_sample :
  (λ out, (Issue.type <$> out.1, Issue.severity <$> out.1, Issue.description <$> out.1))
    (analyze_campaigns [CampaignKPI.mk "11" "Shopping - All" 500 5 (Some 100%float)]
       sample_account_kpis)
  = (["high_cpa_campaign"], ["medium"],
     ["Campaign 'Shopping - All' has CPA of $100.00, 2x higher than account average"]).
Proof. by vm_compute. Qed.

(** A term with cost 21 and no conversion is wasteful, not low-conversion,
    whatever its rate. *)
Example wasteful_term_sample :
  Issue.type <$> (analyze_search_terms
                    [SearchTermData.mk "free shoes" 21 10 0 (Some 0.5%float)]).1
  = ["wasteful_search_term"].
Proof. by vm_compute. Qed.

Example live_run_sample :
  (λ r, match r.1 with
        | Ok response =>
            (Issue.type <$> SnapshotResponse.top_issues response,
             RecommendedAction.priority <$> SnapshotResponse.recommended_actions response,
             provider_calls r.2, stdout r.2)
        | Raise _ => ([], [], [], [])
        end)
    (build_snapshot sample_repr sample_stdout live_settings live_providers "123" "7d" initial_world)
  = (["disapproved_product"; "zero_conversion_campaign"; "high_cpa_campaign";
      "wasteful_search_term"; "policy_limited_ad"; "low_conversion_search_term"],
     ["high"; "high"; "medium"; "medium"; "medium"; "low"],
     [AdsGetAccountKpis "123" "7d"; AdsGetCampaignKpis "123" "7d";
      AdsGetSearchTerms "123" "7d" 10; AdsGetPolicyIssues "123"; McGetDisapprovedProducts],
     []).
Proof. by vm_compute. Qed.

Example failing_run_sample :
  build_snapshot sample_repr sample_stdout live_settings failing_providers "123" "7d" initial_world
  = (Ok (build_demo_snapshot "123" "7d"),
     mkWorld ["API Error: quota exceeded. Falling back to demo mode."]
       [AdsGetAccountKpis "123" "7d"; AdsGetCampaignKpis "123" "7d";
        AdsGetSearchTerms "123" "7d" 10]
       0 0).
Proof. by vm_compute. Qed.

(** * Instances of the claims *)

(** C1 as the spec states it, at a provider interrupted from the keyboard
    and at a closed standard output: a token is configured, the search-terms
    call raises, and [build_snapshot] raises to its caller. *)
Lemma build_snapshot_can_raise :
  token_missing live_settings = false
  ∧ ads_get_search_terms interrupted_providers "123" "7d" 10 = Raise KeyboardInterrupt
  ∧ (build_snapshot sample_repr sample_stdout live_settings interrupted_providers
       "123" "7d" initial_world).1
    = Raise KeyboardInterrupt
  ∧ ads_get_search_terms failing_providers "123" "7d" 10
    = Raise (ProviderError "quota exceeded")
  ∧ (build_snapshot sample_repr closed_stdout live_settings failing_providers
       "123" "7d" initial_world).1
    = Raise (ValueError "I/O operation on closed file.").
Proof. by vm_compute. Qed.

(** C1, amended, at the failing providers: the search-terms call raises an
    [Exception], the line is printed and the fallback report comes back. *)
Lemma build_snapshot_falls_back_witness :
  (build_snapshot sample_repr sample_stdout live_settings failing_providers
     "123" "7d" initial_world).1
  = Ok (build_demo_snapshot "123" "7d").
Proof.
  destruct (proj1 (build_snapshot_falls_back
                     sample_repr sample_stdout live_settings failing_providers
                     "123" "7d" initial_world))
    as (n & e & Hpoint & Hfallback & _).
  - reflexivity.
  - right. right. left. exists (ProviderError "quota exceeded"). reflexivity.
  - vm_compute in Hpoint. injection Hpoint as <- <-.
    apply Hfallback; reflexivity.
Defined.

(** C2 at a campaign with no conversion and a spend of 51, between two
    others. *)
Lemma zero_conversion_campaign_exclusive_witness :
  Issue.type <$>
    (analyze_campaigns
       ([CampaignKPI.mk "11" "Shopping - All" 500 5 (Some 100%float)]
          ++ CampaignKPI.mk "12" "Search - Brand" 51 0 (Some 1000%float)
          :: [CampaignKPI.mk "13" "Search - Generic" 300 10 (Some 30%float)])
       sample_account_kpis).1
  = ["high_cpa_campaign"; "zero_conversion_campaign"].
Proof.
  destruct (zero_conversion_campaign_exclusive
              [CampaignKPI.mk "11" "Shopping - All" 500 5 (Some 100%float)]
              [CampaignKPI.mk "13" "Search - Generic" 300 10 (Some 30%float)]
              (CampaignKPI.mk "12" "Search - Brand" 51 0 (Some 1000%float))
              sample_account_kpis eq_refl eq_refl) as [Hout _].
  rewrite Hout. vm_compute. reflexivity.
Defined.

(** C3 at the sample providers. *)
Lemma aggregation_stable_sort_witness :
  ∃ response,
    (build_snapshot sample_repr sample_stdout live_settings live_providers "123" "7d" initial_world).1
    = Ok response
    ∧ Issue.severity <$> SnapshotResponse.top_issues response
      = ["high"; "high"; "medium"; "medium"; "medium"; "low"]
    ∧ RecommendedAction.related_issue_type <$> SnapshotResponse.recommended_actions response
      = ["disapproved_product"; "zero_conversion_campaign"; "high_cpa_campaign";
         "wasteful_search_term"; "policy_limited_ad"; "low_conversion_search_term"].
Proof.
  assert (analyze_policy_issues sample_repr sample_policy_issues
          = Ok (unzip (policy_finding sample_repr <$> sample_policy_issues))) as Hpolicy
    by (vm_compute; reflexivity).
  destruct (aggregation_stable_sort
              sample_repr sample_stdout live_settings live_providers "123" "7d" initial_world
              sample_account_kpis sample_campaigns sample_search_terms
              sample_policy_issues sample_products
              (unzip (policy_finding sample_repr <$> sample_policy_issues))
              eq_refl eq_refl eq_refl eq_refl eq_refl eq_refl Hpolicy)
    as (response & Hrun & Hissues & Hactions & _).
  exists response. split; [exact Hrun|].
  rewrite Hissues, Hactions. split; vm_compute; reflexivity.
Defined.

(** C4, as the spec states it, at [zero_rate_term]: every condition of the
    rule holds, and the detector reports nothing. *)
Lemma zero_rate_term_not_reported :
  zero_rate_term ∈ take 15 [zero_rate_term]
  ∧ wasteful_rule zero_rate_term = false
  ∧ SearchTermData.conversion_rate zero_rate_term = Some 0%float
  ∧ PrimFloat.ltb 0 1 = true
  ∧ PrimFloat.ltb 50 (SearchTermData.cost zero_rate_term) = true
  ∧ analyze_search_terms [zero_rate_term] = ([], []).
Proof. split; [by left|]. by vm_compute. Qed.

(** C4, amended, at a term with rate 0.5 and cost 60. *)
Lemma low_conversion_search_term_emitted_witness :
  ∃ i issue action,
    (analyze_search_terms sample_search_terms).1 !! i = Some issue
    ∧ (analyze_search_terms sample_search_terms).2 !! i = Some action
    ∧ Issue.type issue = "low_conversion_search_term"
    ∧ RecommendedAction.action_type action = "review_search_term".
Proof.
  destruct (low_conversion_search_term_emitted sample_search_terms
              (SearchTermData.mk "running shoes" 60 100 0.5 (Some 0.5%float)) 0.5%float)
    as (i & issue & action & Hi & Ha & _ & _ & Htype & _ & Hact & _);
    [by left|reflexivity..|].
  by exists i, issue, action.
Defined.

(** C8 at ["123"] and ["7d"], with no token. *)
Lemma build_snapshot_demo_mode_witness :
  build_snapshot sample_repr sample_stdout (mkSettings None) live_providers "123" "7d" initial_world
  = (Ok (build_demo_snapshot "123" "7d"), initial_world)
  ∧ PrimFloat.eqb
      (Summary.total_spend (SnapshotResponse.summary (build_demo_snapshot "123" "7d")))
      1250.50%float = true
  ∧ Summary.currency (SnapshotResponse.summary (build_demo_snapshot "123" "7d")) = "USD"
  ∧ Issue.type <$> head (SnapshotResponse.top_issues (build_demo_snapshot "123" "7d"))
    = Some "disapproved_product".
Proof.
  destruct (build_snapshot_demo_mode
              sample_repr sample_stdout (mkSettings None) live_providers "123" "7d" initial_world eq_refl)
    as (Hrun & _ & Hspend & Hcurrency & Hfirst).
  done.
Defined.

(** * Instances of the further properties *)

(** X1 at a campaign with CPA 100 under an account average of 40. *)
Lemma high_cpa_campaign_emitted_witness :
  analyze_campaigns ([] ++ high_cpa_campaign_sample :: []) sample_account_kpis
  = ((analyze_campaigns [] sample_account_kpis).1
       ++ [high_cpa_campaign_issue high_cpa_campaign_sample 100 40]
       ++ (analyze_campaigns [] sample_account_kpis).1,
     (analyze_campaigns [] sample_account_kpis).2
       ++ [high_cpa_campaign_action high_cpa_campaign_sample]
       ++ (analyze_campaigns [] sample_account_kpis).2).
Proof.
  apply (high_cpa_campaign_emitted [] [] high_cpa_campaign_sample sample_account_kpis
           100%float 40%float); reflexivity.
Defined.

(** X3 at the zero-conversion issue of the sample campaigns. *)
Lemma analyze_campaigns_sound_witness :
  ∃ campaign,
    campaign ∈ sample_campaigns
    ∧ ((PrimFloat.eqb (CampaignKPI.conversions campaign) 0 = true
        ∧ PrimFloat.ltb 50 (CampaignKPI.spend campaign) = true
        ∧ zero_conversion_campaign_issue zero_conversion_campaign_sample
          = zero_conversion_campaign_issue campaign)
       ∨ (zero_conversion_rule campaign = false
          ∧ ∃ c a,
              CampaignKPI.cpa campaign = Some c
              ∧ AccountKpis.average_cpa sample_account_kpis = Some a
              ∧ PrimFloat.eqb c 0 = false
              ∧ PrimFloat.eqb a 0 = false
              ∧ PrimFloat.ltb (a * 2)%float c = true
              ∧ zero_conversion_campaign_issue zero_conversion_campaign_sample
                = high_cpa_campaign_issue campaign c a)).
Proof.
  apply (analyze_campaigns_sound sample_campaigns sample_account_kpis
           (zero_conversion_campaign_issue zero_conversion_campaign_sample)).
  vm_compute. apply list_elem_of_further, list_elem_of_here.
Defined.

(** X4 at the sample campaigns, with no account average. *)
Lemma no_high_cpa_without_average_witness :
  Issue.type <$> (analyze_campaigns sample_campaigns no_average_kpis).1
  = ["zero_conversion_campaign"].
Proof.
  rewrite (no_high_cpa_without_average sample_campaigns no_average_kpis)
    by (left; reflexivity).
  reflexivity.
Defined.

(** X5 at a term with cost 21 and no conversion. *)
Lemma wasteful_search_term_emitted_witness :
  analyze_search_terms [wasteful_term_sample_term]
  = ([wasteful_search_term_issue wasteful_term_sample_term],
     [add_negative_keyword_action wasteful_term_sample_term]).
Proof.
  apply (wasteful_search_term_emitted sample_search_terms wasteful_term_sample_term).
  - apply list_elem_of_further, list_elem_of_here.
  - reflexivity.
  - reflexivity.
Defined.

(** X6 at the wasteful issue of the sample search terms. *)
Lemma analyze_search_terms_sound_witness :
  ∃ term,
    term ∈ take 15 sample_search_terms
    ∧ ((PrimFloat.eqb (SearchTermData.conversions term) 0 = true
        ∧ PrimFloat.ltb 20 (SearchTermData.cost term) = true
        ∧ wasteful_search_term_issue wasteful_term_sample_term
          = wasteful_search_term_issue term)
       ∨ (wasteful_rule term = false
          ∧ ∃ rate,
              SearchTermData.conversion_rate term = Some rate
              ∧ PrimFloat.eqb rate 0 = false
              ∧ PrimFloat.ltb rate 1 = true
              ∧ PrimFloat.ltb 50 (SearchTermData.cost term) = true
              ∧ wasteful_search_term_issue wasteful_term_sample_term
                = low_conversion_search_term_issue term rate)).
Proof.
  apply (analyze_search_terms_sound sample_search_terms
           (wasteful_search_term_issue wasteful_term_sample_term)).
  vm_compute. apply list_elem_of_further, list_elem_of_here.
Defined.

(** X7 at fifteen terms followed by a sixteenth. *)
Lemma analyze_search_terms_cutoff_witness :
  analyze_search_terms (replicate 15 wasteful_term_sample_term ++ sample_search_terms)
  = analyze_search_terms (replicate 15 wasteful_term_sample_term).
Proof.
  apply (analyze_search_terms_cutoff (replicate 15 wasteful_term_sample_term)
           sample_search_terms).
  simpl. lia.
Defined.

(** X8 at a well-formed record followed by one without campaign_name. *)
Lemma policy_first_missing_key_witness :
  analyze_policy_issues sample_repr
    (sample_policy_issues ++ nameless_policy_issue :: sample_policy_issues)
  = Raise (KeyError "campaign_name").
Proof.
  apply (policy_first_missing_key sample_repr sample_policy_issues sample_policy_issues
           nameless_policy_issue "campaign_name").
  - simpl. lia.
  - reflexivity.
  - reflexivity.
Defined.

(** X9 at ten well-formed records followed by a malformed one. *)
Lemma analyze_policy_issues_cutoff_witness :
  analyze_policy_issues sample_repr
    ((sample_policy_issues ++ sample_policy_issues ++ sample_policy_issues
        ++ sample_policy_issues ++ sample_policy_issues ++ sample_policy_issues
        ++ sample_policy_issues ++ sample_policy_issues ++ sample_policy_issues
        ++ sample_policy_issues) ++ [nameless_policy_issue])
  = analyze_policy_issues sample_repr
      (sample_policy_issues ++ sample_policy_issues ++ sample_policy_issues
         ++ sample_policy_issues ++ sample_policy_issues ++ sample_policy_issues
         ++ sample_policy_issues ++ sample_policy_issues ++ sample_policy_issues
         ++ sample_policy_issues).
Proof.
  apply analyze_policy_issues_cutoff. simpl. lia.
Defined.

(** X10 at the sample providers. *)
Lemma live_run_effects_witness :
  ∃ response,
    build_snapshot sample_repr sample_stdout live_settings live_providers "123" "7d" initial_world
    = (Ok response, mkWorld [] (live_calls "123" "7d") 0 0)
    ∧ SnapshotResponse.summary response
      = Summary.mk "7d" 1000 20 (Some 40%float) (Some 2.5%float) "USD".
Proof.
  assert (analyze_policy_issues sample_repr sample_policy_issues
          = Ok (unzip (policy_finding sample_repr <$> sample_policy_issues))) as Hpolicy
    by (vm_compute; reflexivity).
  exact (live_run_effects
           sample_repr sample_stdout live_settings live_providers "123" "7d" initial_world
           sample_account_kpis sample_campaigns sample_search_terms
           sample_policy_issues sample_products
           (unzip (policy_finding sample_repr <$> sample_policy_issues))
           eq_refl eq_refl eq_refl eq_refl eq_refl eq_refl Hpolicy).
Defined.

(** C7 at a policy record with the three keys. *)
Lemma detector_outputs_parallel_witness :
  policy_finding sample_repr sample_policy_record
  = (policy_limited_ad_issue sample_repr sample_policy_record
       (VStr "Spring sale") (VStr "Search - Brand") (VStr "APPROVED_LIMITED"),
     fix_policy_issue_action sample_repr (VStr "Spring sale")).
Proof.
  destruct (detector_outputs_parallel sample_repr)
    as (_ & _ & _ & _ & _ & _ & _ & _ & _ & _ & _ & _ & _ & _ & _ & _ & Hfinding).
  apply (Hfinding sample_policy_record
           (VStr "Spring sale") (VStr "Search - Brand") (VStr "APPROVED_LIMITED"));
    reflexivity.
Defined.

(** X11 at the failing providers: three calls, one line. *)
Lemma failing_run_effects_witness :
  build_snapshot sample_repr sample_stdout live_settings failing_providers
    "123" "7d" initial_world
  = (Ok (build_demo_snapshot "123" "7d"),
     mkWorld ["API Error: quota exceeded. Falling back to demo mode."]
       [AdsGetAccountKpis "123" "7d"; AdsGetCampaignKpis "123" "7d";
        AdsGetSearchTerms "123" "7d" 10]
       0 0).
Proof.
  exact (failing_run_effects sample_repr sample_stdout live_settings failing_providers
           "123" "7d" initial_world 3 (ProviderError "quota exceeded") eq_refl eq_refl).
Defined.

(** X12 at the response of the sample providers. *)
Lemma response_findings_aligned_witness :
  Forall2 (λ issue action,
             RecommendedAction.related_issue_type action = Issue.type issue
             ∧ RecommendedAction.priority action = Issue.severity issue
             ∧ kind_of (issue, action) ∈ finding_kinds)
    (SnapshotResponse.top_issues live_sample_response)
    (SnapshotResponse.recommended_actions live_sample_response).
Proof.
  apply (response_findings_aligned sample_repr sample_stdout live_settings live_providers
           "123" "7d" initial_world live_sample_response).
  vm_compute. reflexivity.
Defined.

(** X13 at the response of the sample providers. *)
Lemma response_rank_buckets_witness :
  SnapshotResponse.top_issues live_sample_response
  = filter (λ x, Issue.severity x = "high") (SnapshotResponse.top_issues live_sample_response)
    ++ filter (λ x, Issue.severity x = "medium")
         (SnapshotResponse.top_issues live_sample_response)
    ++ filter (λ x, Issue.severity x = "low")
         (SnapshotResponse.top_issues live_sample_response).
Proof.
  apply (response_rank_buckets sample_repr sample_stdout live_settings live_providers
           "123" "7d" initial_world live_sample_response).
  vm_compute. reflexivity.
Defined.
